(** * smolink: a URL shortener (Go), embedded and verified

    The development follows [main.go] and its earlier variant (the second
    source file, which accepts only POST on the create route, has no
    [Shorturl] response field and no token provisioning).

    Layout:
    - [Strings]: the functions of Go's [strings] package the program calls;
    - [NetUrl]: the part of Go's [net/url] reached through
      [url.ParseRequestURI], [url.Parse] and [URL.String];
    - [Path]: [path.Split] and [path.Clean], which [http.Redirect] calls;
    - [Smolink]: the store, the four store methods, [http.Redirect], the
      two handlers;
    - the theorems. *)

From Stdlib Require Import String Ascii ZArith NArith Lia Bool.
From stdpp Require Import base option list gmap strings.

Local Open Scope string_scope.
Local Open Scope nat_scope.

(** ** Outcome of a Go call: a normal return or a run-time panic *)

Inductive panic : Type :=
  | NilPointerDereference
  | IndexOutOfRange.

Inductive outcome (A : Type) : Type :=
  | Done (a : A)
  | Panic (p : panic).
Arguments Done {A} a.
Arguments Panic {A} p.

#[global] Instance outcome_ret : MRet outcome := fun _ a => Done a.

#[global] Instance outcome_bind : MBind outcome := fun _ _ k m =>
  match m with
  | Done a => k a
  | Panic p => Panic p
  end.

(** Field access through a pointer: [p.f] panics when [p] is nil. *)
Definition deref {A} (p : option A) : outcome A :=
  match p with
  | Some a => Done a
  | None => Panic NilPointerDereference
  end.

(** Indexing a slice: [a[i]] panics when [i] is out of range. *)
Definition index_slice {A} (a : list A) (i : nat) : outcome A :=
  match a !! i with
  | Some x => Done x
  | None => Panic IndexOutOfRange
  end.

(** ** Go's [strings] package *)

Module Strings.

(** [s[:n]] and [s[n:]] on byte strings. *)
Fixpoint take (n : nat) (s : string) : string :=
  match n, s with
  | S n', String c t => String c (take n' t)
  | _, _ => ""
  end.

Fixpoint drop (n : nat) (s : string) : string :=
  match n, s with
  | S n', String _ t => drop n' t
  | _, _ => s
  end.

Definition len (s : string) : nat := String.length s.

(** [HasPrefix]: [len(s) >= len(prefix) && s[:len(prefix)] == prefix]. *)
Definition HasPrefix (s prefix : string) : bool :=
  (len prefix <=? len s) && String.eqb (take (len prefix) s) prefix.

(** [HasSuffix]: [len(s) >= len(suffix) && s[len(s)-len(suffix):] == suffix]. *)
Definition HasSuffix (s suffix : string) : bool :=
  (len suffix <=? len s) && String.eqb (drop (len s - len suffix) s) suffix.

(** [Index]: the position of the first instance of [substr] in [s];
    [None] stands for Go's [-1]. *)
Fixpoint Index (s substr : string) : option nat :=
  if HasPrefix s substr then Some 0
  else match s with
       | "" => None
       | String _ t => S <$> Index t substr
       end.

(** [LastIndex]: the position of the last instance of [substr] in [s]. *)
Fixpoint LastIndex (s substr : string) : option nat :=
  match s with
  | "" => if HasPrefix s substr then Some 0 else None
  | String _ t =>
      match LastIndex t substr with
      | Some i => Some (S i)
      | None => if HasPrefix s substr then Some 0 else None
      end
  end.

(** [Contains]: [Index(s, substr) >= 0]. *)
Definition Contains (s substr : string) : bool :=
  match Index s substr with Some _ => true | None => false end.

(** [Count] for a non-empty [substr]: the loop
    [i := Index(s, substr); if i == -1 return n; n++; s = s[i+len(substr):]].
    Every round consumes at least one byte, so [len s] rounds are enough.
    (For the empty [substr] Go counts runes; the program never asks.) *)
Fixpoint Count_loop (fuel : nat) (s substr : string) : nat :=
  match fuel with
  | 0 => 0
  | S fuel' =>
      match Index s substr with
      | None => 0
      | Some i => S (Count_loop fuel' (drop (i + len substr) s) substr)
      end
  end.

Definition Count (s substr : string) : nat :=
  match substr with
  | "" => len s + 1
  | _ => Count_loop (len s) s substr
  end.

(** [Cut]: [s[:i], s[i+len(sep):], true] at the first instance of [sep],
    else [s, "", false]. *)
Definition Cut (s sep : string) : string * string * bool :=
  match Index s sep with
  | Some i => (take i s, drop (i + len sep) s, true)
  | None => (s, "", false)
  end.

(** [genSplit(s, sep, 0, -1)] for a non-empty [sep]: [n] is
    [Count(s, sep) + 1], capped at [len(s) + 1]; the loop runs while
    [i < n - 1] and stops early when [Index] finds nothing.  (For the empty
    [sep] Go splits after each UTF-8 sequence; the program splits on the
    scheme word only, and that case is not followed here.) *)
Fixpoint genSplit_loop (n : nat) (s sep : string) : list string :=
  match n with
  | 0 => [s]
  | S n' =>
      match Index s sep with
      | None => [s]
      | Some m => take m s :: genSplit_loop n' (drop (m + len sep) s) sep
      end
  end.

Definition Split (s sep : string) : list string :=
  match sep with
  | "" => [s]
  | _ => genSplit_loop (Nat.min (Count s sep + 1) (len s + 1) - 1) s sep
  end.

(** [Replace(s, old, new, -1)] for a non-empty [old]: returns [s] when
    [old == new] or when [Count(s, old) == 0]; otherwise copies, [Count]
    times, the bytes before the next instance of [old] followed by [new],
    and then the rest. *)
Fixpoint Replace_loop (n : nat) (s old new : string) : string :=
  match n with
  | 0 => s
  | S n' =>
      match Index s old with
      | None => s
      | Some j => take j s +:+ new +:+ Replace_loop n' (drop (j + len old) s) old new
      end
  end.

Definition ReplaceAll (s old new : string) : string :=
  if String.eqb old new then s
  else match Count s old with
       | 0 => s
       | m => Replace_loop m s old new
       end.

(** [ToLower] on ASCII bytes (other bytes are left as they are; the only
    caller passes a URL scheme, which is ASCII). *)
Definition lower_byte (c : ascii) : ascii :=
  let n := N_of_ascii c in
  if ((65 <=? n) && (n <=? 90))%N then ascii_of_N (n + 32) else c.

Fixpoint ToLower (s : string) : string :=
  match s with
  | "" => ""
  | String c t => String (lower_byte c) (ToLower t)
  end.

End Strings.

(** ** Errors

    Go's [error] values the program can meet.  The handlers only test
    [err != nil]; the constructors record where an error comes from. *)

Inductive url_error : Type :=
  | InvalidControlCharacter
  | EmptyUrl
  | MissingProtocolScheme
  | InvalidURIForRequest
  | ColonInFirstPathSegment
  | EscapeError (s : string)
  | InvalidHostError (s : string)
  | MissingBracketInHost
  | InvalidPort (s : string)
  | InvalidUserinfo.

Inductive error : Type :=
  | UrlError (op url : string) (err : url_error)  (* [&url.Error{op, url, err}] *)
  | ErrNoRows                                      (* [sql.ErrNoRows] *)
  | ErrConstraint (table : string).                (* a violated PRIMARY KEY *)

(** ** Go's [net/url], as far as [ParseRequestURI] and [String] reach *)

Module NetUrl.
Import Strings.

Inductive result (A : Type) : Type :=
  | Ok (a : A)
  | Err (e : url_error).
Arguments Ok {A} a.
Arguments Err {A} e.

#[global] Instance result_ret : MRet result := fun _ a => Ok a.
#[global] Instance result_bind : MBind result := fun _ _ k m =>
  match m with
  | Ok a => k a
  | Err e => Err e
  end.

Record Userinfo : Type := mkUserinfo {
  username : string;
  password : string;
  passwordSet : bool
}.

Record URL : Type := mkURL {
  Scheme : string;
  Opaque : string;
  User : option Userinfo;
  Host : string;
  Path : string;
  RawPath : string;
  OmitHost : bool;
  ForceQuery : bool;
  RawQuery : string;
  Fragment : string;
  RawFragment : string
}.

(** [new(URL)]: every field at its zero value. *)
Definition zeroURL : URL := mkURL "" "" None "" "" "" false false "" "" "".

Inductive encoding : Type :=
  | encodePath
  | encodePathSegment
  | encodeHost
  | encodeZone
  | encodeUserPassword
  | encodeQueryComponent
  | encodeFragment.

#[global] Instance encoding_eq_dec : EqDecision encoding.
Proof. solve_decision. Defined.

(** Bytes are compared through their codes. *)
Definition code (c : ascii) : N := N_of_ascii c.

Definition between (lo hi c : ascii) : bool :=
  ((code lo <=? code c) && (code c <=? code hi))%N.

Fixpoint byte_in (c : ascii) (set : string) : bool :=
  match set with
  | "" => false
  | String x t => Ascii.eqb c x || byte_in c t
  end.

Definition isAlnum (c : ascii) : bool :=
  between "a" "z" c || between "A" "Z" c || between "0" "9" c.

Definition ishex (c : ascii) : bool :=
  between "0" "9" c || between "a" "f" c || between "A" "F" c.

Definition unhex (c : ascii) : N :=
  if between "0" "9" c then (code c - code "0")%N
  else if between "a" "f" c then (code c - code "a" + 10)%N
  else if between "A" "F" c then (code c - code "A" + 10)%N
  else 0%N.

Definition upperhex (n : N) : ascii :=
  match String.get (N.to_nat n) "0123456789ABCDEF" with
  | Some c => c
  | None => "0"%char
  end.

(** The double quote, byte 34. *)
Definition dquote : ascii := "034"%char.

(** [shouldEscape(c, mode)]. *)
Definition shouldEscape (c : ascii) (mode : encoding) : bool :=
  if isAlnum c then false
  else if (bool_decide (mode = encodeHost) || bool_decide (mode = encodeZone))
          && (byte_in c "!$&'()*+,;=:[]<>" || Ascii.eqb c dquote) then false
  else if byte_in c "-_.~" then false
  else if byte_in c "$&+,/:;=?@" then
    match mode with
    | encodePath => Ascii.eqb c "?"
    | encodePathSegment => byte_in c "/;,?"
    | encodeUserPassword => byte_in c "@/?:"
    | encodeQueryComponent => true
    | encodeFragment => false
    | encodeHost | encodeZone => true
    end
  else if bool_decide (mode = encodeFragment) && byte_in c "!()*" then false
  else true.

(** The byte [unhex(a)<<4 | unhex(b)]. *)
Definition hexbyte (a b : ascii) : ascii :=
  ascii_of_N (N.lor (N.shiftl (unhex a) 4) (unhex b)).

(** [unescape(s, mode)].  Go checks the whole string in a first pass and
    decodes in a second one; here both are done in one traversal, which
    reports the same first error and builds the same result. *)
Fixpoint unescape (s : string) (mode : encoding) : result string :=
  match s with
  | "" => Ok ""
  | String c t =>
      if Ascii.eqb c "%" then
        match t with
        | String a (String b t') =>
            if ishex a && ishex b then
              if bool_decide (mode = encodeHost) && (unhex a <? 8)%N
                 && negb (String.eqb (take 3 s) "%25")
              then Err (EscapeError (take 3 s))
              else if bool_decide (mode = encodeZone)
                      && negb (String.eqb (take 3 s) "%25")
                      && negb (Ascii.eqb (hexbyte a b) " ")
                      && shouldEscape (hexbyte a b) encodeHost
              then Err (EscapeError (take 3 s))
              else r ← unescape t' mode; Ok (String (hexbyte a b) r)
            else Err (EscapeError (take 3 s))
        | _ => Err (EscapeError (take 3 s))
        end
      else if Ascii.eqb c "+" then
        r ← unescape t mode;
        Ok (String (if bool_decide (mode = encodeQueryComponent)
                    then " "%char else "+"%char) r)
      else if (bool_decide (mode = encodeHost) || bool_decide (mode = encodeZone))
              && (code c <? 128)%N && shouldEscape c encodeHost
      then Err (InvalidHostError (String c ""))
      else r ← unescape t mode; Ok (String c r)
  end.

(** [escape(s, mode)]. *)
Fixpoint escape (s : string) (mode : encoding) : string :=
  match s with
  | "" => ""
  | String c t =>
      if shouldEscape c mode then
        if Ascii.eqb c " " && bool_decide (mode = encodeQueryComponent)
        then String "+" (escape t mode)
        else String "%" (String (upperhex (N.shiftr (code c) 4))
               (String (upperhex (N.land (code c) 15)) (escape t mode)))
      else String c (escape t mode)
  end.

(** [validEncoded(s, mode)]. *)
Fixpoint validEncoded (s : string) (mode : encoding) : bool :=
  match s with
  | "" => true
  | String c t =>
      if byte_in c "!$&'()*+,;=:@" then validEncoded t mode
      else if byte_in c "[]" then validEncoded t mode
      else if Ascii.eqb c "%" then validEncoded t mode
      else if shouldEscape c mode then false
      else validEncoded t mode
  end.

(** [stringContainsCTLByte]: some byte is below [' '] or is [0x7f]. *)
Fixpoint stringContainsCTLByte (s : string) : bool :=
  match s with
  | "" => false
  | String c t => (code c <? 32)%N || (code c =? 127)%N || stringContainsCTLByte t
  end.

(** [getScheme(rawURL)]: [(scheme, path, err)].  [i] is the loop index
    and [s] the bytes from [i] on. *)
Fixpoint getScheme_loop (rawURL : string) (i : nat) (s : string)
  : result (string * string) :=
  match s with
  | "" => Ok ("", rawURL)
  | String c t =>
      if between "a" "z" c || between "A" "Z" c then
        getScheme_loop rawURL (S i) t
      else if between "0" "9" c || byte_in c "+-." then
        if i =? 0 then Ok ("", rawURL) else getScheme_loop rawURL (S i) t
      else if Ascii.eqb c ":" then
        if i =? 0 then Err MissingProtocolScheme
        else Ok (take i rawURL, drop (i + 1) rawURL)
      else Ok ("", rawURL)
  end.

Definition getScheme (rawURL : string) : result (string * string) :=
  getScheme_loop rawURL 0 rawURL.

(** [validOptionalPort(port)]: empty, or a colon followed by digits. *)
Fixpoint allDigits (s : string) : bool :=
  match s with
  | "" => true
  | String c t => between "0" "9" c && allDigits t
  end.

Definition validOptionalPort (port : string) : bool :=
  match port with
  | "" => true
  | String c t => Ascii.eqb c ":" && allDigits t
  end.

(** [parseHost(host)]. *)
Definition parseHost (host : string) : result string :=
  let plain := unescape host encodeHost in
  if HasPrefix host "[" then
    match LastIndex host "]" with
    | None => Err MissingBracketInHost
    | Some i =>
        let colonPort := drop (i + 1) host in
        if negb (validOptionalPort colonPort) then Err (InvalidPort colonPort)
        else
          match Index (take i host) "%25" with
          | Some zone =>
              host1 ← unescape (take zone host) encodeHost;
              host2 ← unescape (drop zone (take i host)) encodeZone;
              host3 ← unescape (drop i host) encodeHost;
              Ok (host1 +:+ host2 +:+ host3)
          | None => plain
          end
    end
  else
    match LastIndex host ":" with
    | Some i =>
        let colonPort := drop i host in
        if negb (validOptionalPort colonPort) then Err (InvalidPort colonPort)
        else plain
    | None => plain
    end.

(** [validUserinfo(s)]. *)
Fixpoint validUserinfo (s : string) : bool :=
  match s with
  | "" => true
  | String c t => (isAlnum c || byte_in c "-._:~!$&'()*+,;=%@") && validUserinfo t
  end.

(** [parseAuthority(authority)]: [(user, host, err)]. *)
Definition parseAuthority (authority : string)
  : result (option Userinfo * string) :=
  let i := LastIndex authority "@" in
  host ← match i with
         | None => parseHost authority
         | Some i => parseHost (drop (i + 1) authority)
         end;
  match i with
  | None => Ok (None, host)
  | Some i =>
      let userinfo := take i authority in
      if negb (validUserinfo userinfo) then Err InvalidUserinfo
      else if negb (Contains userinfo ":") then
        userinfo ← unescape userinfo encodeUserPassword;
        Ok (Some (mkUserinfo userinfo "" false), host)
      else
        let '(username, password, _) := Cut userinfo ":" in
        username ← unescape username encodeUserPassword;
        password ← unescape password encodeUserPassword;
        Ok (Some (mkUserinfo username password true), host)
  end.

(** [(u *URL).setPath(p)]: sets [Path] and, when the default encoding of
    [Path] differs from [p], [RawPath]. *)
Definition setPath (u : URL) (p : string) : result URL :=
  path ← unescape p encodePath;
  let escp := escape path encodePath in
  Ok (mkURL u.(Scheme) u.(Opaque) u.(User) u.(Host)
            path (if String.eqb p escp then "" else p)
            u.(OmitHost) u.(ForceQuery) u.(RawQuery)
            u.(Fragment) u.(RawFragment)).

(** [parse(rawURL, viaRequest)] at [viaRequest = true], the only way
    [ParseRequestURI] calls it. *)
Definition parse_viaRequest (rawURL : string) : result URL :=
  if stringContainsCTLByte rawURL then Err InvalidControlCharacter
  else if String.eqb rawURL "" then Err EmptyUrl
  else if String.eqb rawURL "*" then
    Ok (mkURL "" "" None "" "*" "" false false "" "" "")
  else
    '(scheme, rest) ← getScheme rawURL;
    let scheme := ToLower scheme in
    let '(rest, forceQuery, rawQuery) :=
      if HasSuffix rest "?" && (Count rest "?" =? 1)
      then (take (len rest - 1) rest, true, "")
      else let '(before, after, _) := Cut rest "?" in (before, false, after) in
    if negb (HasPrefix rest "/") then
      if negb (String.eqb scheme "") then
        (* a rootless path is kept opaque *)
        Ok (mkURL scheme rest None "" "" "" false forceQuery rawQuery "" "")
      else Err InvalidURIForRequest
    else
      if negb (String.eqb scheme "") && HasPrefix rest "//" then
        let authority := drop 2 rest in
        let '(authority, rest) :=
          match Index authority "/" with
          | Some i => (take i authority, drop i authority)
          | None => (authority, "")
          end in
        '(user, host) ← parseAuthority authority;
        setPath (mkURL scheme "" user host "" "" false forceQuery rawQuery "" "")
                rest
      else
        let omitHost := negb (String.eqb scheme "") && HasPrefix rest "/" in
        setPath (mkURL scheme "" None "" "" "" omitHost forceQuery rawQuery "" "")
                rest.

(** [parse(rawURL, viaRequest)] for either value of [viaRequest]; [Parse]
    calls it with [false].  [parse_authority_path] is the end of the
    function, from the test for an authority on. *)
Definition parse_authority_path (viaRequest : bool) (scheme rest : string)
    (forceQuery : bool) (rawQuery : string) : result URL :=
  if (negb (String.eqb scheme "")
      || negb viaRequest && negb (HasPrefix rest "///"))
     && HasPrefix rest "//" then
    let authority := drop 2 rest in
    let '(authority, rest) :=
      match Index authority "/" with
      | Some i => (take i authority, drop i authority)
      | None => (authority, "")
      end in
    '(user, host) ← parseAuthority authority;
    setPath (mkURL scheme "" user host "" "" false forceQuery rawQuery "" "")
            rest
  else
    let omitHost := negb (String.eqb scheme "") && HasPrefix rest "/" in
    setPath (mkURL scheme "" None "" "" "" omitHost forceQuery rawQuery "" "")
            rest.

Definition parse (rawURL : string) (viaRequest : bool) : result URL :=
  if stringContainsCTLByte rawURL then Err InvalidControlCharacter
  else if String.eqb rawURL "" && viaRequest then Err EmptyUrl
  else if String.eqb rawURL "*" then
    Ok (mkURL "" "" None "" "*" "" false false "" "" "")
  else
    '(scheme, rest) ← getScheme rawURL;
    let scheme := ToLower scheme in
    let '(rest, forceQuery, rawQuery) :=
      if HasSuffix rest "?" && (Count rest "?" =? 1)
      then (take (len rest - 1) rest, true, "")
      else let '(before, after, _) := Cut rest "?" in (before, false, after) in
    if negb (HasPrefix rest "/") then
      if negb (String.eqb scheme "") then
        Ok (mkURL scheme rest None "" "" "" false forceQuery rawQuery "" "")
      else if viaRequest then Err InvalidURIForRequest
      else
        let '(segment, _, _) := Cut rest "/" in
        if Contains segment ":" then Err ColonInFirstPathSegment
        else parse_authority_path viaRequest scheme rest forceQuery rawQuery
    else parse_authority_path viaRequest scheme rest forceQuery rawQuery.

(** [(u *URL).setFragment(f)]. *)
Definition setFragment (u : URL) (f : string) : result URL :=
  frag ← unescape f encodeFragment;
  let escf := escape frag encodeFragment in
  Ok (mkURL u.(Scheme) u.(Opaque) u.(User) u.(Host) u.(Path) u.(RawPath)
            u.(OmitHost) u.(ForceQuery) u.(RawQuery)
            frag (if String.eqb f escf then "" else f)).

(** [Parse(rawURL)]: the fragment is cut off at the first [#] and set
    after the rest is parsed. *)
Definition Parse (rawURL : string) : result URL :=
  let '(u, frag, _) := Cut rawURL "#" in
  url ← parse u false;
  if String.eqb frag "" then Ok url else setFragment url frag.

(** [ParseRequestURI(rawURL)]: a URL pointer and an error, the pointer nil exactly
    when the error is not. *)
Definition ParseRequestURI (rawURL : string) : option URL * option error :=
  match parse_viaRequest rawURL with
  | Ok url => (Some url, None)
  | Err err => (None, Some (UrlError "parse" rawURL err))
  end.

(** [(u *URL).EscapedPath()]. *)
Definition EscapedPath (u : URL) : string :=
  let fallback :=
    if String.eqb u.(Path) "*" then "*" else escape u.(Path) encodePath in
  if negb (String.eqb u.(RawPath) "") && validEncoded u.(RawPath) encodePath then
    match unescape u.(RawPath) encodePath with
    | Ok p => if String.eqb p u.(Path) then u.(RawPath) else fallback
    | Err _ => fallback
    end
  else fallback.

(** [(u *URL).EscapedFragment()]. *)
Definition EscapedFragment (u : URL) : string :=
  let fallback := escape u.(Fragment) encodeFragment in
  if negb (String.eqb u.(RawFragment) "")
     && validEncoded u.(RawFragment) encodeFragment then
    match unescape u.(RawFragment) encodeFragment with
    | Ok f => if String.eqb f u.(Fragment) then u.(RawFragment) else fallback
    | Err _ => fallback
    end
  else fallback.

(** [(u *Userinfo).String()]. *)
Definition Userinfo_String (u : Userinfo) : string :=
  let s := escape u.(username) encodeUserPassword in
  if u.(passwordSet) then s +:+ ":" +:+ escape u.(password) encodeUserPassword
  else s.

(** [(u *URL).String()]: the pieces are appended to [buf] in order. *)
Definition URL_String (u : URL) : string :=
  let buf := "" in
  let buf := if negb (String.eqb u.(Scheme) "")
             then buf +:+ u.(Scheme) +:+ ":" else buf in
  let buf :=
    if negb (String.eqb u.(Opaque) "") then buf +:+ u.(Opaque)
    else
      let buf :=
        if negb (String.eqb u.(Scheme) "") || negb (String.eqb u.(Host) "")
           || bool_decide (u.(User) <> None) then
          if u.(OmitHost) && String.eqb u.(Host) ""
             && bool_decide (u.(User) = None) then buf
          else
            let buf :=
              if negb (String.eqb u.(Host) "") || negb (String.eqb u.(Path) "")
                 || bool_decide (u.(User) <> None)
              then buf +:+ "//" else buf in
            let buf :=
              match u.(User) with
              | Some ui => buf +:+ Userinfo_String ui +:+ "@"
              | None => buf
              end in
            if negb (String.eqb u.(Host) "")
            then buf +:+ escape u.(Host) encodeHost else buf
        else buf in
      let path := EscapedPath u in
      let buf :=
        if negb (String.eqb path "") && negb (HasPrefix path "/")
           && negb (String.eqb u.(Host) "")
        then buf +:+ "/" else buf in
      let buf :=
        if String.eqb buf "" then
          let '(segment, _, _) := Cut path "/" in
          if Contains segment ":" then buf +:+ "./" else buf
        else buf in
      buf +:+ path in
  let buf := if u.(ForceQuery) || negb (String.eqb u.(RawQuery) "")
             then buf +:+ "?" +:+ u.(RawQuery) else buf in
  if negb (String.eqb u.(Fragment) "")
  then buf +:+ "#" +:+ EscapedFragment u else buf.

End NetUrl.

(** ** Reference functions on byte strings, used to state what the library
    calls compute *)

Module Bytes.

(** [s] without the bytes equal to [c]. *)
Fixpoint remove_byte (c : ascii) (s : string) : string :=
  match s with
  | "" => ""
  | String x t =>
      if Ascii.eqb x c then remove_byte c t else String x (remove_byte c t)
  end.

(** How many bytes of [s] equal [c]. *)
Fixpoint count_byte (c : ascii) (s : string) : nat :=
  match s with
  | "" => 0
  | String x t => (if Ascii.eqb x c then 1 else 0) + count_byte c t
  end.

(** The bytes of [s] before the first [c] (all of [s] when there is none). *)
Fixpoint before (c : ascii) (s : string) : string :=
  match s with
  | "" => ""
  | String x t => if Ascii.eqb x c then "" else String x (before c t)
  end.

(** The number of rounds [Split] grants its loop. *)
Definition rounds (s sep : string) : nat :=
  Nat.min (Strings.Count s sep + 1) (Strings.len s + 1) - 1.

(** Every byte of [s] satisfies [p]. *)
Fixpoint all_bytes (p : ascii -> bool) (s : string) : bool :=
  match s with
  | "" => true
  | String x t => p x && all_bytes p t
  end.

End Bytes.

(** ** Go's [path] package, as far as [http.Redirect] calls it *)

Module Path.
Import Strings.

(** [Split(path)]: cut after the last slash. *)
Definition Split (path : string) : string * string :=
  match LastIndex path "/" with
  | Some i => (take (i + 1) path, drop (i + 1) path)
  | None => ("", path)
  end.

(** The backtracking of a [..] element: [out.w--], then [out.w--] again
    while [out.w > dotdot] and the byte at [out.w] is not a slash.  [out]
    holds the bytes written so far and [w] is the new length. *)
Fixpoint backtrack_loop (fuel : nat) (out : string) (w dotdot : nat) : nat :=
  match fuel with
  | 0 => w
  | S fuel' =>
      if (dotdot <? w)
         && negb (match String.get w out with
                  | Some c => Ascii.eqb c "/"
                  | None => false
                  end)
      then backtrack_loop fuel' out (w - 1) dotdot
      else w
  end.

Definition backtrack (out : string) (dotdot : nat) : string :=
  take (backtrack_loop (len out) out (len out - 1) dotdot) out.

(** The loop of [Clean]: [rest] is [path[r:]], [out] the bytes written.
    Every round consumes at least one byte of [rest], so [len path] rounds
    are enough. *)
Fixpoint Clean_loop (fuel : nat) (rooted : bool) (rest out : string)
    (dotdot : nat) : string :=
  match fuel with
  | 0 => out
  | S fuel' =>
      match rest with
      | "" => out
      | String c t =>
          if Ascii.eqb c "/" then
            (* empty path element *)
            Clean_loop fuel' rooted t out dotdot
          else if Ascii.eqb c "." && (String.eqb t "" || HasPrefix t "/") then
            (* . element *)
            Clean_loop fuel' rooted t out dotdot
          else if Ascii.eqb c "." && HasPrefix t "."
                  && (String.eqb (drop 1 t) "" || HasPrefix (drop 1 t) "/") then
            (* .. element: remove to last slash *)
            if dotdot <? len out then
              Clean_loop fuel' rooted (drop 1 t) (backtrack out dotdot) dotdot
            else if negb rooted then
              let out := if 0 <? len out then out +:+ "/" else out in
              let out := out +:+ ".." in
              Clean_loop fuel' rooted (drop 1 t) out (len out)
            else Clean_loop fuel' rooted (drop 1 t) out dotdot
          else
            (* real path element: a slash if needed, then the element *)
            let out :=
              if rooted && negb (len out =? 1) || negb rooted && negb (len out =? 0)
              then out +:+ "/" else out in
            let element := Bytes.before "/" rest in
            Clean_loop fuel' rooted (drop (len element) rest) (out +:+ element)
                       dotdot
      end
  end.

(** [Clean(path)]. *)
Definition Clean (path : string) : string :=
  if String.eqb path "" then "."
  else
    let rooted := HasPrefix path "/" in
    let out :=
      if rooted then Clean_loop (len path) rooted (drop 1 path) "/" 1
      else Clean_loop (len path) rooted path "" 0 in
    if len out =? 0 then "." else out.

End Path.

(** ** The program *)

Module Smolink.
Import Strings NetUrl.

(** The two source files: the earlier one serves only POST on the create
    route and answers with a single field. *)
Inductive variant : Type :=
  | Base
  | Enhanced.

(** [newURLResponse]; the earlier file has no [Shorturl] field. *)
Record newURLResponse : Type := mkNewURLResponse {
  Url : string;
  Shorturl : option string
}.

Record shortURL : Type := mkShort { Value : string }.

(** *** The store

    [db] wraps the connection to the SQLite file; its state is the content
    of the two tables.
    - [authorization (id integer PRIMARY KEY, key text NOT NULL,
      date_created)]: the rows in scan (rowid) order; nothing makes [key]
      unique.
    - [links (short_url text NOT NULL PRIMARY KEY, full_url text NOT NULL,
      date_created)]: a finite map from the primary key. *)
Record authorizationRow : Type := mkAuthorizationRow {
  id : Z;
  key : string;
  key_date_created : Z
}.

Record linkRow : Type := mkLinkRow {
  full_url : string;
  date_created : Z
}.

Record db : Type := mkDb {
  authorization : list authorizationRow;
  links : gmap string linkRow
}.

(** [QueryRow(select key from authorization where key = ?, token)] followed
    by [Scan(&dbToken)]: the first matching row, or [sql.ErrNoRows]. *)
Definition select_key_where (d : db) (token : string) : string * option error :=
  match List.find (fun r => String.eqb r.(key) token) d.(authorization) with
  | Some r => (r.(key), None)
  | None => ("", Some ErrNoRows)
  end.

(** [QueryRow(select key from authorization)] followed by [Scan]. *)
Definition select_key (d : db) : string * option error :=
  match d.(authorization) with
  | r :: _ => (r.(key), None)
  | [] => ("", Some ErrNoRows)
  end.

(** [QueryRow(select full_url from links where short_url = ?, path)]
    followed by [Scan(&fullUrl)]. *)
Definition select_full_url (d : db) (path : string) : string * option error :=
  match d.(links) !! path with
  | Some r => (r.(full_url), None)
  | None => ("", Some ErrNoRows)
  end.

(** [Exec(insert into links (short_url, full_url, date_created) ...)]:
    refused when the primary key is taken. *)
Definition insert_link (d : db) (k originalUrl : string) (now : Z)
  : db * option error :=
  match d.(links) !! k with
  | Some _ => (d, Some (ErrConstraint "links"))
  | None =>
      (mkDb d.(authorization) (<[k := mkLinkRow originalUrl now]> d.(links)),
       None)
  end.

(** [Exec(insert into authorization (id, key, date_created) values(nil, ...))]:
    a NULL [id] takes the next rowid, one more than the largest in use. *)
Definition next_id (rows : list authorizationRow) : Z :=
  (foldr (fun r m => Z.max r.(id) m) 0 rows + 1)%Z.

Definition insert_authorization (d : db) (k : string) (now : Z)
  : db * option error :=
  (mkDb (d.(authorization) ++ [mkAuthorizationRow (next_id d.(authorization)) k now])
        d.(links),
   None).

(** *** Store methods *)

Definition validateAuthorization (d : db) (token : string) : bool :=
  let '(dbToken, err) := select_key_where d token in
  match err with
  | Some _ => false
  | None => String.eqb token dbToken
  end.

(** [os.Getenv]: the empty string when the variable is unset. *)
Definition Getenv (env : gmap string string) (name : string) : string :=
  default "" (env !! name).

Definition baseURL (env : gmap string string) : string :=
  Getenv env "BASE_URL".

Definition mkShortURL (env : gmap string string) (path : string) : shortURL :=
  mkShort (baseURL env +:+ "/" +:+ path).

(** [fresh] is the value [shortuuid.New()] returns in this call and [now]
    the value of [time.Now()]. *)
Definition saveShortUrl (env : gmap string string) (d : db)
    (fresh : string) (now : Z) (originalUrl : string)
  : db * (shortURL * option error) :=
  let key := fresh in
  let short := mkShortURL env key in
  let '(d', err) := insert_link d key originalUrl now in
  (d', (short, err)).

(** The field [Path] is read before [err] is looked at. *)
Definition getFullUrl (d : db) (shortUrl : shortURL)
  : outcome (string * option error) :=
  let '(pathWithLeadingSlash, err) := ParseRequestURI shortUrl.(Value) in
  u ← deref pathWithLeadingSlash;
  let path := ReplaceAll u.(Path) "/" "" in
  match err with
  | Some e => Done ("", Some e)
  | None => Done (select_full_url d path)
  end.

(** Only in the later file.  [fresh] is [uuid.New().String()]. *)
Definition generateDefaultAuthorizationToken (d : db) (fresh : string) (now : Z)
  : db * (string * option error) :=
  let '(existingKey, err) := select_key d in
  match err with
  | None => (d, ("", None))
  | Some _ =>
      let key := fresh in
      let '(d', err) := insert_authorization d key now in
      (d', (key, err))
  end.

(** *** HTTP *)

Definition MethodGet : string := "GET".
Definition MethodPost : string := "POST".

Definition StatusOK : nat := 200.
Definition StatusTemporaryRedirect : nat := 307.
Definition StatusBadRequest : nat := 400.
Definition StatusUnauthorized : nat := 401.
Definition StatusMethodNotAllowed : nat := 405.
Definition StatusInternalServerError : nat := 500.

(** What a handler reads of [*http.Request]: [r.Method], [r.Header],
    [r.URL.Path] and [r.URL.Query()]. *)
Record Request : Type := mkRequest {
  Method : string;
  Header : gmap string (list string);
  URL_Path : string;
  URL_Query : gmap string (list string)
}.

(** [Header.Get] and [Values.Get]: the first value of the key, else empty. *)
Definition Get (m : gmap string (list string)) (k : string) : string :=
  match m !! k with
  | Some (v :: _) => v
  | _ => ""
  end.

(** What a handler writes: the body and status of [http.Error(w, body,
    code)], the [Location] header and status of a redirect, or a
    JSON-encoded value under a [Content-Type] header (status 200, as
    nothing else is set). *)
Inductive response : Type :=
  | http_Error (body : string) (code : nat)
  | http_Redirect (location : string) (code : nat)
  | json_Encode (contentType : string) (v : newURLResponse).

Definition status (w : response) : nat :=
  match w with
  | http_Error _ code => code
  | http_Redirect _ code => code
  | json_Encode _ _ => StatusOK
  end.

(** [hexEscapeNonASCII(s)]: every byte from [0x80] on becomes a percent
    sign and its two hexadecimal digits, in lower case. *)
Definition lowerhex (n : N) : ascii :=
  match String.get (N.to_nat n) "0123456789abcdef" with
  | Some c => c
  | None => "0"%char
  end.

Fixpoint hexEscapeNonASCII (s : string) : string :=
  match s with
  | "" => ""
  | String c t =>
      if (128 <=? code c)%N then
        String "%" (String (lowerhex (N.shiftr (code c) 4))
          (String (lowerhex (N.land (code c) 15)) (hexEscapeNonASCII t)))
      else String c (hexEscapeNonASCII t)
  end.

(** [http.Redirect(w, r, url, code)].  A [url] that [Parse] accepts
    without scheme and host is made absolute: put under the directory of
    the request path unless it starts with a slash, cleaned up to its
    query, a trailing slash kept.  The [Location] header is the result
    with its non-ASCII bytes escaped.  (The anchor in the body repeats the
    same URL; body and [Content-Type] are not recorded.) *)
Definition Redirect (r : Request) (url : string) (code : nat) : response :=
  let url :=
    match Parse url with
    | Ok u =>
        if String.eqb u.(Scheme) "" && String.eqb u.(Host) "" then
          let oldpath := if String.eqb r.(URL_Path) "" then "/" else r.(URL_Path) in
          let url :=
            if String.eqb url "" || negb (HasPrefix url "/")
            then (Path.Split oldpath).1 +:+ url
            else url in
          let '(url, query) :=
            match Index url "?" with
            | Some i => (take i url, drop i url)
            | None => (url, "")
            end in
          let trailing := HasSuffix url "/" in
          let url := Path.Clean url in
          let url :=
            if trailing && negb (HasSuffix url "/") then url +:+ "/" else url in
          url +:+ query
        else url
    | Err _ => url
    end in
  http_Redirect (hexEscapeNonASCII url) code.

(** The first [case] of the create handler's [switch r.Method]. *)
Definition createMethod (v : variant) (m : string) : bool :=
  match v with
  | Base => String.eqb m MethodPost
  | Enhanced => String.eqb m MethodPost || String.eqb m MethodGet
  end.

(** The token the create handler passes to [validateAuthorization]. *)
Definition bearerToken (authHeader : string) : outcome string :=
  index_slice (Split authHeader "Bearer ") 1.

Definition createLinkHandler (v : variant) (env : gmap string string) (d : db)
    (fresh : string) (now : Z) (r : Request) : outcome (db * response) :=
  let authHeader := Get r.(Header) "Authorization" in
  if (len authHeader <? 1) || negb (Contains authHeader "Bearer ") then
    Done (d, http_Error "Unauthorized" StatusUnauthorized)
  else
    token ← bearerToken authHeader;
    let isAuthed := validateAuthorization d token in
    if negb isAuthed then
      Done (d, http_Error "Unauthorized" StatusUnauthorized)
    else if createMethod v r.(Method) then
      let values := r.(URL_Query) in
      let '(url, err) := ParseRequestURI (Get values "url") in
      match err with
      | Some _ => Done (d, http_Error "Malformed URL" StatusBadRequest)
      | None =>
          u ← deref url;
          let '(d', (short, err)) := saveShortUrl env d fresh now (URL_String u) in
          match err with
          | Some _ =>
              Done (d', http_Error "Failed to create short url"
                                   StatusInternalServerError)
          | None =>
              let response :=
                mkNewURLResponse short.(Value)
                  (match v with
                   | Base => None
                   | Enhanced => Some short.(Value)
                   end) in
              Done (d', json_Encode "application/json" response)
          end
      end
    else
      Done (d, http_Error "Method not supported" StatusMethodNotAllowed).

Definition expandLinkHandler (d : db) (r : Request) : outcome response :=
  if String.eqb r.(Method) MethodGet then
    let path := mkShort r.(URL_Path) in
    '(fullUrl, err) ← getFullUrl d path;
    match err with
    | Some _ =>
        Done (http_Error "Failed to get full url" StatusInternalServerError)
    | None => Done (Redirect r fullUrl StatusTemporaryRedirect)
    end
  else
    Done (http_Error "Method not supported" StatusMethodNotAllowed).

(** *** What the random sources and repeated runs contribute *)

(** The alphabet [shortuuid.New()] writes its identifiers in (base 57). *)
Definition DefaultAlphabet : string :=
  "23456789ABCDEFGHJKLMNPQRSTUVWXYZabcdefghijkmnopqrstuvwxyz".

Definition shortuuid_key (k : string) : bool :=
  Bytes.all_bytes (fun c => byte_in c DefaultAlphabet) k.

(** The provisioning step of [main], run once per start of the process,
    each run with its own fresh UUID and clock value. *)
Fixpoint startups (d : db) (runs : list (string * Z)) : db :=
  match runs with
  | [] => d
  | (fresh, now) :: runs' =>
      startups (generateDefaultAuthorizationToken d fresh now).1 runs'
  end.

(** How many rows of the authorization table hold [token]. *)
Definition matching_rows (d : db) (token : string) : nat :=
  length (List.filter (fun r => String.eqb r.(key) token) d.(authorization)).

(** The alphabet of [uuid.New().String()]: lower-case hexadecimal digits
    and dashes. *)
Definition uuid_string (k : string) : bool :=
  Bytes.all_bytes (fun c => byte_in c "0123456789abcdef-") k.

(** A URL scheme as [getScheme] accepts it: a letter, then letters,
    digits, plus, minus and dot. *)
Definition scheme_byte (c : ascii) : bool :=
  between "a" "z" c || between "A" "Z" c || between "0" "9" c || byte_in c "+-.".

Definition scheme_ok (s : string) : bool :=
  match s with
  | "" => false
  | String c t =>
      (between "a" "z" c || between "A" "Z" c) && Bytes.all_bytes scheme_byte t
  end.

(** Bytes below [0x80]. *)
Definition ascii_byte (c : ascii) : bool := (code c <? 128)%N.

(** Bytes that are neither control bytes nor one of the delimiters
    [parse] looks for. *)
Definition quiet (c : ascii) : bool :=
  negb ((code c <? 32)%N || (code c =? 127)%N)
  && negb (byte_in c "%+?@:[").

(** Plain URLs: a lower-case scheme, a host of letters, digits, dots and
    dashes, a path that is empty or starts with a slash and holds
    unreserved bytes and slashes, and a query that is empty or starts with
    a question mark and holds no control byte. *)
Definition plain_scheme (s : string) : bool :=
  negb (String.eqb s "") && Bytes.all_bytes (between "a" "z") s.

Definition plain_host (h : string) : bool :=
  negb (String.eqb h "")
  && Bytes.all_bytes (fun c => isAlnum c || byte_in c ".-") h.

Definition plain_path (p : string) : bool :=
  (String.eqb p "" || HasPrefix p "/")
  && Bytes.all_bytes (fun c => isAlnum c || byte_in c "-._~/") p.

Definition plain_query (qs : string) : bool :=
  (String.eqb qs "" || HasPrefix qs "?") && negb (stringContainsCTLByte qs).

Definition plain_url (scheme host path qs : string) : string :=
  scheme +:+ "://" +:+ host +:+ path +:+ qs.

(** Create requests served one after the other, each call with the
    identifier and the clock value it draws. *)
Fixpoint createRequests (v : variant) (env : gmap string string) (d : db)
    (calls : list (string * Z * Request)) : outcome db :=
  match calls with
  | [] => Done d
  | (fresh, now, r) :: calls' =>
      '(d', _) ← createLinkHandler v env d fresh now r;
      createRequests v env d' calls'
  end.

End Smolink.

(** ** Sample stores and requests, for the concrete runs below *)

Module Sample.
Import Smolink.

Definition env : gmap string string :=
  {[ "BASE_URL" := "https://short.example" ]}.


(** One provisioned token, no link yet. *)
Definition store : db := mkDb [mkAuthorizationRow 1 "secret" 0] ∅.

(** The same token in two rows (the schema allows it). *)
Definition store_twice : db :=
  mkDb [mkAuthorizationRow 1 "secret" 0; mkAuthorizationRow 2 "secret" 0] ∅.

(** One link, under the identifier [abc]. *)
Definition store_abc : db :=
  mkDb [mkAuthorizationRow 1 "secret" 0]
       {[ "abc" := mkLinkRow "https://example.com" 0 ]}.

(** An identifier as [shortuuid.New()] makes them. *)
Definition fresh : string := "mhvXdrZT4jP5T8vBxuvm75".

(** A request to [/c?url=u] with one Authorization header [h]. *)
Definition create (m h u : string) : Request :=
  mkRequest m {[ "Authorization" := [h] ]} "/c" {[ "url" := [u] ]}.

(** A request to [/c?url=u] without an Authorization header. *)
Definition create_anonymous (m u : string) : Request :=
  mkRequest m ∅ "/c" {[ "url" := [u] ]}.

(** A request for the path [p], no header, no query. *)
Definition expand (m p : string) : Request := mkRequest m ∅ p ∅.

End Sample.

(** * Facts about the library functions *)

Module StringFacts.
Import Strings.

Lemma len_drop n s : len (drop n s) = len s - n.
Proof. revert s; induction n as [|n IH]; intros [|c s]; simpl; auto. Qed.


Lemma app_cons c s t : String c s +:+ t = String c (s +:+ t).
Proof. reflexivity. Qed.

Lemma app_nil_l s : "" +:+ s = s.
Proof. reflexivity. Qed.

Lemma take_drop n s : take n s +:+ drop n s = s.
Proof.
  revert s; induction n as [|n IH]; intros [|c s]; simpl; auto.
  by rewrite app_cons, IH.
Qed.

Lemma HasPrefix_nil s : HasPrefix s "" = true.
Proof. by destruct s. Qed.

Lemma HasPrefix_cons c s x p :
  HasPrefix (String c s) (String x p) = Ascii.eqb c x && HasPrefix s p.
Proof.
  unfold HasPrefix; simpl.
  destruct (Ascii.eqb c x); simpl; [done|].
  by rewrite andb_false_r.
Qed.


Lemma HasPrefix_app s p : HasPrefix s p = true <-> exists t, s = p +:+ t.
Proof.
  revert s; induction p as [|x p IH]; intros s.
  - rewrite HasPrefix_nil. split; [by exists s|done].
  - destruct s as [|c s].
    + split; [done|]. by intros [t ?].
    + rewrite HasPrefix_cons, andb_true_iff, IH, Ascii.eqb_eq.
      split.
      * intros [-> [t ->]]. by exists t.
      * intros [t Ht]. rewrite app_cons in Ht. injection Ht as -> ->. eauto.
Qed.


Lemma Index_unfold s sep :
  Index s sep =
    if HasPrefix s sep then Some 0
    else match s with "" => None | String _ t => S <$> Index t sep end.
Proof. by destruct s. Qed.

(** What a found index says. *)
Lemma Index_Some s sep m :
  Index s sep = Some m ->
  HasPrefix (drop m s) sep = true /\ m + len sep <= len s.
Proof.
  revert m; induction s as [|c s IH]; intros m; rewrite Index_unfold.
  - destruct (HasPrefix "" sep) eqn:E; [|done].
    intros [= <-]. split; [done|].
    destruct sep; [simpl; lia|done].
  - destruct (HasPrefix (String c s) sep) eqn:E.
    + intros [= <-]. split; [done|].
      unfold HasPrefix in E. apply andb_true_iff in E as [E _].
      apply Nat.leb_le in E. simpl in *. lia.
    + destruct (Index s sep) as [i|] eqn:Ei; [|done].
      intros [= <-]. destruct (IH i eq_refl) as [H1 H2].
      split; [done|]. simpl. lia.
Qed.

Lemma Index_first s sep m :
  Index s sep = Some m -> forall i, i < m -> HasPrefix (drop i s) sep = false.
Proof.
  revert m; induction s as [|c s IH]; intros m; rewrite Index_unfold.
  - destruct (HasPrefix "" sep); [|done]. intros [= <-] i Hi. lia.
  - destruct (HasPrefix (String c s) sep) eqn:E.
    + intros [= <-] i Hi. lia.
    + destruct (Index s sep) as [k|] eqn:Ek; [|done].
      intros [= <-] [|i] Hi; [done|]. simpl. apply (IH k eq_refl). lia.
Qed.

Lemma Index_None s sep :
  Index s sep = None -> forall i, HasPrefix (drop i s) sep = false.
Proof.
  induction s as [|c s IH]; rewrite Index_unfold.
  - destruct (HasPrefix "" sep) eqn:E; [done|]. intros _ [|i]; done.
  - destruct (HasPrefix (String c s) sep) eqn:E; [done|].
    destruct (Index s sep) eqn:Ek; [done|].
    intros _ [|i]; [done|]. simpl. by apply IH.
Qed.

Lemma Index_shrinks s sep m :
  sep <> "" -> Index s sep = Some m -> len (drop (m + len sep) s) < len s.
Proof.
  intros Hsep [_ H]%Index_Some. rewrite len_drop.
  destruct sep; [done|]. simpl in *. lia.
Qed.
Lemma app_assoc' s t u : (s +:+ t) +:+ u = s +:+ t +:+ u.
Proof. induction s as [|c s IH]; [done|]. by rewrite !app_cons, IH. Qed.

Lemma app_nil_r s : s +:+ "" = s.
Proof. induction s as [|c s IH]; [done|]. by rewrite app_cons, IH. Qed.

Lemma len_app s t : len (s +:+ t) = len s + len t.
Proof.
  induction s as [|c s IH]; [done|]. rewrite app_cons.
  change (len (String c (s +:+ t))) with (S (len (s +:+ t))). by rewrite IH.
Qed.

Lemma take_app_len a b : take (len a) (a +:+ b) = a.
Proof. induction a as [|c a IH]; [by destruct b|]. rewrite app_cons. simpl. by rewrite IH. Qed.

Lemma drop_app_len a b : drop (len a) (a +:+ b) = b.
Proof. induction a as [|c a IH]; [by destruct b|]. by rewrite app_cons. Qed.

End StringFacts.

Module SplitFacts.
Import Strings StringFacts Bytes.

Lemma Index_empty_None sep : sep <> "" -> Index "" sep = None.
Proof. by destruct sep. Qed.

Lemma len_0 s : len s = 0 -> s = "".
Proof. by destruct s. Qed.

Lemma genSplit_loop_head n s sep :
  exists x l, genSplit_loop n s sep = x :: l.
Proof. destruct n; simpl; [eauto|]. destruct (Index s sep); eauto. Qed.

Lemma Split_unfold s sep :
  sep <> "" -> Split s sep = genSplit_loop (rounds s sep) s sep.
Proof. by destruct sep. Qed.

Lemma Count_unfold s sep :
  sep <> "" -> Count s sep = Count_loop (len s) s sep.
Proof. by destruct sep. Qed.

(** A separator that occurs grants at least one round; the second piece
    is cut at the next instance, and when no round is left there is no
    next instance. *)
Lemma rounds_found s sep m :
  sep <> "" -> Index s sep = Some m ->
  exists n, rounds s sep = S n /\
    (n = 0 -> Index (drop (m + len sep) s) sep = None).
Proof.
  intros Hsep Hm. unfold rounds. rewrite Count_unfold by done.
  pose proof (Index_shrinks _ _ _ Hsep Hm) as Hlt.
  destruct (len s) as [|k] eqn:Hk; [lia|].
  simpl Count_loop. rewrite Hm.
  set (rest := drop (m + len sep) s) in *.
  exists (Nat.min (Count_loop k rest sep) k). split; [lia|].
  intros H0.
  destruct k as [|k].
  - assert (rest = "") as -> by (apply len_0; lia).
    by apply Index_empty_None.
  - simpl in H0. destruct (Index rest sep); [lia|done].
Qed.

Lemma Split_second s sep m :
  sep <> "" -> Index s sep = Some m ->
  Split s sep !! 1 = Some (Cut (drop (m + len sep) s) sep).1.1.
Proof.
  intros Hsep Hm. rewrite Split_unfold by done.
  destruct (rounds_found _ _ _ Hsep Hm) as (n & -> & Hn).
  simpl. rewrite Hm. simpl. unfold Cut.
  destruct n as [|n]; simpl.
  - by rewrite Hn.
  - destruct (Index (drop _ s) sep); reflexivity.
Qed.

Lemma Split_length s sep :
  sep <> "" -> Contains s sep = true -> 2 <= length (Split s sep).
Proof.
  intros Hsep Hc. unfold Contains in Hc.
  destruct (Index s sep) as [m|] eqn:Hm; [|done].
  rewrite Split_unfold by done.
  destruct (rounds_found _ _ _ Hsep Hm) as (n & -> & _).
  simpl. rewrite Hm.
  destruct (genSplit_loop_head n (drop (m + len sep) s) sep) as (x & l & ->).
  simpl. lia.
Qed.
End SplitFacts.

Module ByteFacts.
Import Strings StringFacts SplitFacts Bytes.

Lemma HasPrefix_byte x t c : HasPrefix (String x t) (String c "") = Ascii.eqb x c.
Proof. by rewrite HasPrefix_cons, HasPrefix_nil, andb_true_r. Qed.

Lemma Index_byte x t c :
  Index (String x t) (String c "") =
    if Ascii.eqb x c then Some 0 else S <$> Index t (String c "").
Proof. by rewrite Index_unfold, HasPrefix_byte. Qed.

Lemma Index_byte_Some c s i :
  Index s (String c "") = Some i ->
  count_byte c s = S (count_byte c (drop (i + 1) s))
  /\ remove_byte c s = take i s +:+ remove_byte c (drop (i + 1) s)
  /\ before c s = take i s.
Proof.
  revert i; induction s as [|x t IH]; intros i; [done|].
  rewrite Index_byte. simpl.
  destruct (Ascii.eqb x c) eqn:E.
  - intros [= <-]. simpl. by rewrite app_nil_l.
  - destruct (Index t (String c "")) as [k|]; [|done].
    intros [= <-]. destruct (IH k eq_refl) as (H1 & H2 & H3).
    simpl. rewrite app_cons. by rewrite H1, H2, H3.
Qed.

Lemma Index_byte_None c s :
  Index s (String c "") = None ->
  count_byte c s = 0 /\ remove_byte c s = s /\ before c s = s.
Proof.
  induction s as [|x t IH]; [done|].
  rewrite Index_byte. simpl.
  destruct (Ascii.eqb x c) eqn:E; [done|].
  destruct (Index t (String c "")) as [k|]; [done|].
  intros _. destruct (IH eq_refl) as (H1 & H2 & H3).
  by rewrite H1, H2, H3.
Qed.

Lemma Count_loop_byte c fuel s :
  len s <= fuel -> Count_loop fuel s (String c "") = count_byte c s.
Proof.
  revert s; induction fuel as [|fuel IH]; intros s Hs.
  - by rewrite (len_0 s) by lia.
  - simpl. destruct (Index s (String c "")) as [i|] eqn:Hi.
    + assert (len (drop (i + len (String c "")) s) < len s) as Hlt
        by (by apply Index_shrinks).
      apply Index_byte_Some in Hi as (-> & _ & _).
      f_equal. apply IH. simpl in Hlt. lia.
    + by apply Index_byte_None in Hi as (-> & _ & _).
Qed.

Lemma Count_byte c s : Count s (String c "") = count_byte c s.
Proof. by apply Count_loop_byte. Qed.

Lemma Replace_loop_byte c n s :
  count_byte c s <= n -> Replace_loop n s (String c "") "" = remove_byte c s.
Proof.
  revert s; induction n as [|n IH]; intros s Hs.
  - simpl. assert (count_byte c s = 0) as H0 by lia. clear Hs.
    induction s as [|x t IHt]; [done|]. simpl in *.
    destruct (Ascii.eqb x c); simpl in *; [done|]. f_equal; auto.
  - simpl. destruct (Index s (String c "")) as [i|] eqn:Hi.
    + apply Index_byte_Some in Hi as (Hc & -> & _).
      rewrite app_nil_l. f_equal. apply IH. simpl. lia.
    + by apply Index_byte_None in Hi as (_ & -> & _).
Qed.

(** [strings.ReplaceAll(s, c, empty)] deletes the byte [c]. *)
Lemma ReplaceAll_byte c s : ReplaceAll s (String c "") "" = remove_byte c s.
Proof.
  unfold ReplaceAll. simpl String.eqb. rewrite Count_byte.
  destruct (count_byte c s) as [|n] eqn:Hn.
  - symmetry. rewrite <- (Replace_loop_byte c 0 s) by lia. done.
  - apply Replace_loop_byte. lia.
Qed.

(** [strings.Cut(s, c)] keeps the bytes before the first [c]. *)
Lemma Cut_byte c s : (Cut s (String c "")).1.1 = before c s.
Proof.
  unfold Cut. destruct (Index s (String c "")) as [i|] eqn:Hi.
  - by apply Index_byte_Some in Hi as (_ & _ & ->).
  - by apply Index_byte_None in Hi as (_ & _ & ->).
Qed.
End ByteFacts.

Module UrlFacts.
Import Strings StringFacts SplitFacts Bytes ByteFacts NetUrl.

(** [unescape] in path mode, one step. *)
Lemma unescape_path_cons c t :
  unescape (String c t) encodePath =
    if Ascii.eqb c "%" then
      match t with
      | String a (String b t') =>
          if ishex a && ishex b
          then r ← unescape t' encodePath; Ok (String (hexbyte a b) r)
          else Err (EscapeError (take 3 (String c t)))
      | _ => Err (EscapeError (take 3 (String c t)))
      end
    else r ← unescape t encodePath; Ok (String c r).
Proof.
  simpl. destruct (Ascii.eqb c "%") eqn:E1.
  - by destruct t as [|a [|b t']].
  - destruct (Ascii.eqb c "+") eqn:E2; [|done].
    apply Ascii.eqb_eq in E2 as ->. done.
Qed.

Lemma ishex_not_slash a : ishex a = true -> Ascii.eqb a "/" = false.
Proof. destruct a as [[] [] [] [] [] [] [] []]; vm_compute; done. Qed.

Lemma bind_Ok {A B} (m : result A) (k : A -> result B) b :
  m ≫= k = Ok b -> exists a, m = Ok a /\ k a = Ok b.
Proof. destruct m as [a|e]; [eauto|done]. Qed.

(** Deleting the slashes before decoding changes the decoded path by
    slashes only. *)
Lemma unescape_remove_slash r x :
  unescape r encodePath = Ok x ->
  exists x', unescape (remove_byte "/" r) encodePath = Ok x'
             /\ remove_byte "/" x' = remove_byte "/" x.
Proof.
  remember (len r) as n eqn:Hn. assert (len r <= n) as Hle by lia. clear Hn.
  revert r x Hle. induction n as [|n IH]; intros r x Hle.
  { rewrite (len_0 r) by lia. intros [= <-]. by exists "". }
  destruct r as [|c t]; [intros [= <-]; by exists ""|].
  rewrite unescape_path_cons. simpl in Hle.
  destruct (Ascii.eqb c "%") eqn:Ec.
  - apply Ascii.eqb_eq in Ec as ->.
    destruct t as [|a [|b t']]; try done.
    destruct (ishex a) eqn:Ha, (ishex b) eqn:Hb; try done. simpl andb. cbv iota.
    intros (y & Hy & [= <-])%bind_Ok.
    destruct (IH t' y) as (y' & Hy' & Hs); [simpl in Hle; lia|done|].
    exists (String (hexbyte a b) y'). split.
    + simpl remove_byte. rewrite (ishex_not_slash a Ha), (ishex_not_slash b Hb).
      rewrite unescape_path_cons. simpl Ascii.eqb. cbv iota.
      rewrite Ha, Hb. simpl andb. cbv iota. by rewrite Hy'.
    + simpl. by rewrite Hs.
  - intros (y & Hy & [= <-])%bind_Ok.
    destruct (IH t y) as (y' & Hy' & Hs); [lia|done|].
    simpl remove_byte. destruct (Ascii.eqb c "/") eqn:Es.
    + exists y'. by split.
    + exists (String c y'). split.
      * rewrite unescape_path_cons, Ec. by rewrite Hy'.
      * simpl. rewrite Es. by rewrite Hs.
Qed.

Lemma before_remove_slash s :
  remove_byte "/" (before "?" s) = before "?" (remove_byte "/" s).
Proof.
  induction s as [|x t IH]; [done|]. simpl.
  destruct (Ascii.eqb x "?") eqn:Eq.
  - apply Ascii.eqb_eq in Eq as ->. done.
  - simpl. destruct (Ascii.eqb x "/") eqn:Es; [done|].
    simpl. by rewrite Eq, IH.
Qed.

Lemma HasSuffix_app s suf :
  HasSuffix s suf = true -> s = take (len s - len suf) s +:+ suf.
Proof.
  unfold HasSuffix. intros [_ H%String.eqb_eq]%andb_true_iff.
  rewrite <- H at 2. by rewrite take_drop.
Qed.

Lemma count_byte_app c s t : count_byte c (s +:+ t) = count_byte c s + count_byte c t.
Proof.
  induction s as [|x s IH]; [done|]. rewrite app_cons. simpl. rewrite IH. lia.
Qed.

Lemma before_app_absent c s t :
  count_byte c s = 0 -> before c (s +:+ String c t) = s.
Proof.
  induction s as [|x s IH]; simpl.
  - intros _. rewrite ?app_nil_l. simpl. by rewrite Ascii.eqb_refl.
  - rewrite ?app_cons. simpl. destruct (Ascii.eqb x c); [done|].
    simpl. intros H. by rewrite IH.
Qed.

(** The two ways [parse] separates the query leave the same bytes in
    front: those before the first question mark. *)
Lemma query_split rest :
  (if HasSuffix rest "?" && (Count rest "?" =? 1)
   then take (len rest - 1) rest
   else (Cut rest "?").1.1) = before "?" rest.
Proof.
  rewrite Count_byte.
  destruct (HasSuffix rest "?") eqn:Hs; simpl andb; cbv iota.
  - destruct (count_byte "?" rest =? 1) eqn:Hc.
    + apply Nat.eqb_eq in Hc. apply HasSuffix_app in Hs.
      change (len "?") with 1 in Hs. set (t := take (len rest - 1) rest) in *.
      rewrite Hs in Hc |- *. rewrite count_byte_app in Hc. simpl in Hc.
      rewrite before_app_absent; [done|lia].
    + apply Cut_byte.
  - apply Cut_byte.
Qed.
End UrlFacts.

Module ParseFacts.
Import Strings StringFacts SplitFacts Bytes ByteFacts NetUrl UrlFacts.

Lemma getScheme_slash t : getScheme (String "/" t) = Ok ("", String "/" t).
Proof. reflexivity. Qed.

Lemma setPath_cases u p :
  match unescape p encodePath with
  | Ok x => exists v, setPath u p = Ok v /\ v.(Path) = x
  | Err e => setPath u p = Err e
  end.
Proof.
  unfold setPath. destruct (unescape p encodePath) as [x|e]; [|done].
  eexists. split; [reflexivity|done].
Qed.

(** A request path (it starts with a slash) has no scheme and no
    authority: [parse] rejects control bytes, drops the query, and
    decodes what is left into [Path]. *)
Lemma parse_request_path p :
  HasPrefix p "/" = true ->
  if stringContainsCTLByte p then
    parse_viaRequest p = Err InvalidControlCharacter
  else
    match unescape (before "?" p) encodePath with
    | Ok x => exists u, parse_viaRequest p = Ok u /\ u.(Path) = x
    | Err e => parse_viaRequest p = Err e
    end.
Proof.
  destruct p as [|c t]; [done|]. rewrite HasPrefix_byte. intros ->%Ascii.eqb_eq.
  unfold parse_viaRequest.
  destruct (stringContainsCTLByte _); [done|].
  change (String.eqb (String "/" t) "") with false.
  change (String.eqb (String "/" t) "*") with false.
  cbv iota. rewrite getScheme_slash.
  set (rest := String "/" t).
  pose proof (query_split rest) as Hq.
  assert (HasPrefix (before "?" rest) "/" = true) as Hpre by done.
  unfold mbind, result_bind. cbv beta iota. change (ToLower "") with "".
  change (String.eqb "" "") with true.
  destruct (HasSuffix rest "?" && (Count rest "?" =? 1)).
  - rewrite Hq, Hpre. simpl negb. simpl andb. cbv iota. apply setPath_cases.
  - destruct (Cut rest "?") as [[b a] f]. cbn [fst] in Hq. subst b.
    rewrite Hpre. simpl negb. simpl andb. cbv iota. apply setPath_cases.
Qed.

Lemma parse_request_path_Ok p u :
  HasPrefix p "/" = true -> parse_viaRequest p = Ok u ->
  unescape (before "?" p) encodePath = Ok u.(Path).
Proof.
  intros Hp Hu. pose proof (parse_request_path p Hp) as H.
  destruct (stringContainsCTLByte p); [congruence|].
  destruct (unescape (before "?" p) encodePath) as [x|e]; [|congruence].
  destruct H as (v & Hv & <-). congruence.
Qed.

(** The bytes of a short identifier need no escaping and hide no
    delimiter. *)
Lemma alphabet_byte c :
  byte_in c Smolink.DefaultAlphabet = true ->
  Ascii.eqb c "%" = false /\ Ascii.eqb c "+" = false /\ Ascii.eqb c "?" = false
  /\ Ascii.eqb c "/" = false /\ (code c <? 32)%N = false /\ (code c =? 127)%N = false.
Proof. destruct c as [[] [] [] [] [] [] [] []]; vm_compute; intros; done. Qed.

Lemma key_plain k :
  Smolink.shortuuid_key k = true ->
  stringContainsCTLByte k = false
  /\ before "?" k = k
  /\ remove_byte "/" k = k
  /\ unescape k encodePath = Ok k.
Proof.
  unfold Smolink.shortuuid_key.
  induction k as [|c k IH]; [done|].
  simpl all_bytes. intros [Hc Hk]%andb_true_iff.
  destruct (IH Hk) as (H1 & H2 & H3 & H4).
  destruct (alphabet_byte c Hc) as (E1 & E2 & E3 & E4 & E5 & E6).
  repeat split.
  - simpl. by rewrite E5, E6, H1.
  - simpl. by rewrite E3, H2.
  - simpl. by rewrite E4, H3.
  - rewrite unescape_path_cons, E1, H4. done.
Qed.

(** The path made of a slash and a short identifier parses to itself. *)
Lemma parse_key_path k :
  Smolink.shortuuid_key k = true ->
  exists u, ParseRequestURI ("/" +:+ k) = (Some u, None)
            /\ ReplaceAll u.(Path) "/" "" = k.
Proof.
  intros Hk. destruct (key_plain k Hk) as (H1 & H2 & H3 & H4).
  pose proof (parse_request_path (String "/" k) eq_refl) as H.
  assert (stringContainsCTLByte (String "/" k) = false) as E1
    by (simpl; by rewrite H1).
  assert (before "?" (String "/" k) = String "/" k) as E2
    by (simpl; by rewrite H2).
  assert (unescape (String "/" k) encodePath = Ok (String "/" k)) as E3
    by (rewrite unescape_path_cons; simpl Ascii.eqb; cbv iota; by rewrite H4).
  rewrite E1, E2, E3 in H. destruct H as (u & Hu & HP).
  change ("/" +:+ k) with (String "/" k).
  exists u. unfold ParseRequestURI. rewrite Hu. split; [done|].
  rewrite ReplaceAll_byte, HP. simpl. by rewrite H3.
Qed.
End ParseFacts.

(** * Facts about the program *)

Module ProgramFacts.
Import Strings StringFacts SplitFacts Bytes ByteFacts NetUrl UrlFacts ParseFacts.
Import Smolink.

Lemma bearer_nonempty : "Bearer " <> "".
Proof. discriminate. Qed.

Lemma bearerToken_found h m :
  Index h "Bearer " = Some m ->
  bearerToken h = Done (Cut (drop (m + len "Bearer ") h) "Bearer ").1.1.
Proof.
  intros Hm. unfold bearerToken, index_slice.
  by rewrite (Split_second h "Bearer " m bearer_nonempty Hm).
Qed.

Lemma Contains_Index s sep :
  Contains s sep = true <-> exists m, Index s sep = Some m.
Proof.
  unfold Contains. destruct (Index s sep) as [m|]; split; eauto; try done.
  by intros [m ?].
Qed.

(** A token was extracted only if the header holds the scheme word. *)
Lemma bearerToken_Done h token :
  bearerToken h = Done token -> Contains h "Bearer " = true.
Proof.
  unfold bearerToken, index_slice, Contains.
  destruct (Index h "Bearer ") as [m|] eqn:Hm; [done|].
  rewrite Split_unfold by apply bearer_nonempty.
  unfold rounds. rewrite Count_unfold by apply bearer_nonempty.
  destruct (len h) as [|n]; simpl Count_loop; rewrite ?Hm; simpl; by rewrite ?Hm.
Qed.

Lemma Contains_nonempty h : Contains h "Bearer " = true -> (len h <? 1) = false.
Proof. by destruct h. Qed.

(** The guard of the create handler lets a header pass exactly when it
    holds the scheme word. *)
Lemma guard_Contains h :
  (len h <? 1) || negb (Contains h "Bearer ") = negb (Contains h "Bearer ").
Proof.
  destruct (Contains h "Bearer ") eqn:E.
  - by rewrite (Contains_nonempty h E).
  - by rewrite orb_true_r.
Qed.

Lemma find_matching_rows d token :
  List.find (fun r => String.eqb r.(key) token) d.(authorization) = None
  <-> matching_rows d token = 0.
Proof.
  unfold matching_rows. induction (authorization d) as [|r l IH]; [done|].
  simpl. destruct (String.eqb (key r) token); simpl; [split; done|apply IH].
Qed.

Lemma validateAuthorization_rows d token :
  validateAuthorization d token = true <-> 1 <= matching_rows d token.
Proof.
  unfold validateAuthorization, select_key_where.
  destruct (List.find _ _) as [r|] eqn:E.
  - destruct (List.find_some _ _ E) as [_ Hk]. apply String.eqb_eq in Hk.
    rewrite Hk, String.eqb_refl. split; [|done]. intros _.
    destruct (matching_rows d token) eqn:E0; [|lia].
    apply find_matching_rows in E0. congruence.
  - apply find_matching_rows in E. rewrite E. split; [done|lia].
Qed.

Lemma matching_rows_elem d token :
  1 <= matching_rows d token <-> exists r, r ∈ d.(authorization) /\ r.(key) = token.
Proof.
  unfold matching_rows. induction (authorization d) as [|r l IH]; simpl.
  - split; [lia|]. intros (r & Hr & _). by apply elem_of_nil in Hr.
  - destruct (String.eqb (key r) token) eqn:E; simpl.
    + apply String.eqb_eq in E. split; [|lia]. intros _. exists r.
      split; [apply elem_of_cons; by left|done].
    + rewrite IH. apply String.eqb_neq in E. split.
      * intros (r' & Hr' & Hk). exists r'. split; [apply elem_of_cons; by right|done].
      * intros (r' & Hr' & Hk). apply elem_of_cons in Hr' as [->|Hr']; [done|eauto].
Qed.

(** What [getFullUrl] does, by the outcome of the parse. *)
Lemma getFullUrl_cases d s :
  match parse_viaRequest s with
  | Ok u => getFullUrl d (mkShort s)
            = Done (select_full_url d (remove_byte "/" u.(Path)))
  | Err _ => getFullUrl d (mkShort s) = Panic NilPointerDereference
  end.
Proof.
  unfold getFullUrl, ParseRequestURI. simpl Value.
  destruct (parse_viaRequest s) as [u|e]; [|done].
  simpl. by rewrite ReplaceAll_byte.
Qed.

(** Provisioning on a table that has a row, and what it leaves. *)
Lemma provision_noop d fresh now :
  d.(authorization) <> [] ->
  generateDefaultAuthorizationToken d fresh now = (d, ("", None)).
Proof. destruct d as [[|row rows] l]; [done|reflexivity]. Qed.

Lemma provision_leaves_row d fresh now :
  (generateDefaultAuthorizationToken d fresh now).1.(authorization) <> [].
Proof. by destruct d as [[|row rows] l]. Qed.

Lemma startups_noop d runs :
  d.(authorization) <> [] -> startups d runs = d.
Proof.
  revert d; induction runs as [|[fresh now] runs IH]; intros d Hd; [done|].
  simpl. rewrite (provision_noop d fresh now Hd). by apply IH.
Qed.
End ProgramFacts.

(** * Facts about redirects *)

Module RedirectFacts.
Import Strings StringFacts SplitFacts Bytes ByteFacts NetUrl UrlFacts ParseFacts.
Import Smolink ProgramFacts.

(** The general [parse], called as [ParseRequestURI] calls it, is the
    function the lookup and the create handler were read with. *)
Lemma parse_true_viaRequest rawURL : parse rawURL true = parse_viaRequest rawURL.
Proof.
  unfold parse, parse_viaRequest, parse_authority_path.
  rewrite andb_true_r. simpl negb. simpl andb.
  destruct (stringContainsCTLByte rawURL); [done|].
  destruct (String.eqb rawURL ""); [done|].
  destruct (String.eqb rawURL "*"); [done|].
  destruct (getScheme rawURL) as [[scheme rest]|e]; [|done].
  unfold mbind, result_bind. cbv beta iota zeta.
  destruct (if HasSuffix rest "?" && (Count rest "?" =? 1) then _ else _)
    as [[rest' fq] rq].
  rewrite !orb_false_r.
  destruct (HasPrefix rest' "/"); simpl negb; cbv iota; [done|].
  by destruct (String.eqb (ToLower scheme) "").
Qed.

Lemma all_bytes_app P s t :
  all_bytes P (s +:+ t) = all_bytes P s && all_bytes P t.
Proof.
  induction s as [|c s IH]; [done|]. rewrite app_cons. simpl.
  by rewrite IH, andb_assoc.
Qed.

Lemma scheme_ok_snoc pre c :
  scheme_ok pre = true -> scheme_byte c = true ->
  scheme_ok (pre +:+ String c "") = true.
Proof.
  destruct pre as [|x pre]; [done|]. rewrite app_cons. simpl.
  intros [Hx Hpre]%andb_true_iff Hc. rewrite Hx, all_bytes_app, Hpre. simpl.
  by rewrite Hc.
Qed.

Lemma letter_scheme_byte c :
  between "a" "z" c || between "A" "Z" c = true -> scheme_byte c = true.
Proof. unfold scheme_byte. intros H. by rewrite H. Qed.

Lemma getScheme_loop_cons raw i c t :
  getScheme_loop raw i (String c t) =
    if between "a" "z" c || between "A" "Z" c then getScheme_loop raw (S i) t
    else if between "0" "9" c || byte_in c "+-." then
      if i =? 0 then Ok ("", raw) else getScheme_loop raw (S i) t
    else if Ascii.eqb c ":" then
      if i =? 0 then Err MissingProtocolScheme
      else Ok (take i raw, drop (i + 1) raw)
    else Ok ("", raw).
Proof. reflexivity. Qed.

(** The scheme [getScheme] returns is empty or well formed. *)
Lemma getScheme_loop_ok raw s : forall pre sch rest,
  raw = pre +:+ s ->
  pre = "" \/ scheme_ok pre = true ->
  getScheme_loop raw (len pre) s = Ok (sch, rest) ->
  sch = "" \/ (scheme_ok sch = true /\ raw = sch +:+ ":" +:+ rest).
Proof.
  induction s as [|c s IH]; intros pre sch rest Hraw Hpre.
  { simpl. intros H. inversion H. by left. }
  rewrite getScheme_loop_cons.
  assert (pre +:+ String c s = (pre +:+ String c "") +:+ s) as Hsnoc
    by (by rewrite app_assoc').
  assert (S (len pre) = len (pre +:+ String c "")) as Hlen
    by (rewrite len_app; simpl; lia).
  destruct (between "a" "z" c || between "A" "Z" c) eqn:Hl.
  - rewrite Hlen. apply IH; [by rewrite Hraw|]. right.
    destruct Hpre as [->|Hpre].
    + rewrite app_nil_l. simpl. by rewrite Hl.
    + apply scheme_ok_snoc; [done|by apply letter_scheme_byte].
  - destruct (between "0" "9" c || byte_in c "+-.") eqn:Hd.
    + destruct (len pre =? 0) eqn:H0; [intros H; inversion H; by left|].
      rewrite Hlen. apply IH; [by rewrite Hraw|]. right.
      destruct Hpre as [->|Hpre]; [done|].
      apply scheme_ok_snoc; [done|]. unfold scheme_byte.
      by rewrite Hl, orb_false_l, Hd.
    + destruct (Ascii.eqb c ":") eqn:Hc; [|intros H; inversion H; by left].
      apply Ascii.eqb_eq in Hc as ->.
      destruct (len pre =? 0) eqn:H0; [done|].
      intros H. inversion H as [[Hs Hr]]. right.
      destruct Hpre as [->|Hpre]; [done|].
      rewrite Hraw, take_app_len. split; [done|].
      change (String ":" s) with (":" +:+ s). rewrite <- (app_assoc' pre ":" s).
      replace (len pre + 1) with (len (pre +:+ ":")) by (by rewrite len_app).
      by rewrite drop_app_len, app_assoc'.
Qed.

Lemma getScheme_ok raw sch rest :
  getScheme raw = Ok (sch, rest) ->
  sch = "" \/ (scheme_ok sch = true /\ raw = sch +:+ ":" +:+ rest).
Proof. apply (getScheme_loop_ok raw raw "" sch rest); [done|by left]. Qed.

(** A well-formed scheme in front of a colon is what [getScheme] finds. *)
Lemma getScheme_loop_found raw s rest : forall i,
  all_bytes scheme_byte s = true ->
  (i = 0 -> match s with
            | "" => False
            | String c _ => between "a" "z" c || between "A" "Z" c = true
            end) ->
  getScheme_loop raw i (s +:+ String ":" rest)
  = Ok (take (i + len s) raw, drop (i + len s + 1) raw).
Proof.
  induction s as [|c s IH]; intros i Hs Hi.
  - rewrite app_nil_l. simpl. destruct i; [by destruct Hi|].
    simpl. by rewrite !Nat.add_0_r.
  - rewrite app_cons. simpl in Hs. apply andb_true_iff in Hs as [Hc Hs].
    rewrite getScheme_loop_cons.
    assert (getScheme_loop raw (S i) (s +:+ String ":" rest)
            = Ok (take (i + len (String c s)) raw,
                  drop (i + len (String c s) + 1) raw)) as Hrec.
    { rewrite (IH (S i) Hs) by done. simpl len.
      by replace (S i + len s) with (i + S (len s)) by lia. }
    destruct (between "a" "z" c || between "A" "Z" c) eqn:Hl; [done|].
    unfold scheme_byte in Hc. rewrite Hl, orb_false_l in Hc. rewrite Hc.
    destruct (i =? 0) eqn:H0; [|done].
    apply Nat.eqb_eq in H0. by specialize (Hi H0).
Qed.

Lemma getScheme_found S rest :
  scheme_ok S = true -> getScheme (S +:+ ":" +:+ rest) = Ok (S, rest).
Proof.
  intros HS. unfold getScheme.
  change (S +:+ ":" +:+ rest) with (S +:+ String ":" rest).
  rewrite (getScheme_loop_found _ S rest 0).
  - simpl Nat.add. rewrite take_app_len.
    change (String ":" rest) with (":" +:+ rest).
    rewrite <- (app_assoc' S ":" rest).
    replace (len S + 1) with (len (S +:+ ":")) by (by rewrite len_app).
    by rewrite drop_app_len.
  - destruct S as [|c S]; [done|]. simpl in HS.
    apply andb_true_iff in HS as [Hc HS]. simpl.
    by rewrite (letter_scheme_byte c Hc), HS.
  - intros _. destruct S as [|c S]; [done|]. simpl in HS.
    by apply andb_true_iff in HS as [Hc _].
Qed.

Lemma lower_byte_letter c :
  between "a" "z" c || between "A" "Z" c = true ->
  between "a" "z" (lower_byte c) || between "A" "Z" (lower_byte c) = true.
Proof. destruct c as [[] [] [] [] [] [] [] []]; vm_compute; intros; done. Qed.

Lemma lower_byte_scheme c :
  scheme_byte c = true -> scheme_byte (lower_byte c) = true.
Proof. destruct c as [[] [] [] [] [] [] [] []]; vm_compute; intros; done. Qed.

Lemma ToLower_scheme_ok S : scheme_ok S = true -> scheme_ok (ToLower S) = true.
Proof.
  destruct S as [|c S]; [done|]. simpl.
  intros [Hc HS]%andb_true_iff. rewrite (lower_byte_letter c Hc). simpl.
  induction S as [|x S IH]; [done|]. simpl in *.
  apply andb_true_iff in HS as [Hx HS]. by rewrite (lower_byte_scheme x Hx), IH.
Qed.

Lemma scheme_ok_nonempty S : scheme_ok S = true -> String.eqb S "" = false.
Proof. by destruct S. Qed.

Lemma setPath_Scheme v p u : setPath v p = Ok u -> u.(Scheme) = v.(Scheme).
Proof. unfold setPath. intros (path & _ & [= <-])%bind_Ok. done. Qed.

Lemma setFragment_Scheme v f u :
  setFragment v f = Ok u
  -> u.(Scheme) = v.(Scheme) /\ u.(Host) = v.(Host).
Proof. unfold setFragment. intros (frag & _ & [= <-])%bind_Ok. done. Qed.

(** The scheme of a parsed URL is the lower-cased scheme [getScheme] found. *)
Lemma parse_viaRequest_Scheme U u :
  parse_viaRequest U = Ok u ->
  u.(Scheme) = ""
  \/ exists sch rest, getScheme U = Ok (sch, rest) /\ u.(Scheme) = ToLower sch.
Proof.
  unfold parse_viaRequest.
  destruct (stringContainsCTLByte U); [done|].
  destruct (String.eqb U ""); [done|].
  destruct (String.eqb U "*"); [intros [= <-]; by left|].
  destruct (getScheme U) as [[sch rest]|e]; [|done].
  intros H. right. exists sch, rest. split; [done|].
  unfold mbind, result_bind in H. cbv beta iota in H.
  repeat case_match; simplify_eq; try done;
    match goal with H : setPath _ _ = Ok _ |- _ => by apply setPath_Scheme in H end.
Qed.

Lemma parse_authority_path_Scheme vr scheme rest fq rq u :
  parse_authority_path vr scheme rest fq rq = Ok u -> u.(Scheme) = scheme.
Proof.
  unfold parse_authority_path. unfold mbind, result_bind.
  intros H. repeat case_match; simplify_eq; try done;
    match goal with H : setPath _ _ = Ok _ |- _ => by apply setPath_Scheme in H end.
Qed.

Lemma parse_Scheme raw vr sch rest u :
  getScheme raw = Ok (sch, rest) ->
  String.eqb raw "*" = false ->
  parse raw vr = Ok u -> u.(Scheme) = ToLower sch.
Proof.
  intros Hg Hstar. unfold parse. rewrite Hg, Hstar.
  unfold mbind, result_bind. cbv beta iota.
  intros H. repeat case_match; simplify_eq; try done;
    match goal with
    | H : parse_authority_path _ _ _ _ _ = Ok _ |- _ =>
        by apply parse_authority_path_Scheme in H
    end.
Qed.

Lemma URL_String_prefix u :
  String.eqb u.(Scheme) "" = false ->
  exists tail, URL_String u = u.(Scheme) +:+ ":" +:+ tail.
Proof.
  intros Hs. unfold URL_String. rewrite Hs. simpl negb. cbv iota.
  rewrite app_nil_l.
  repeat case_match; rewrite ?app_assoc'; eexists; reflexivity.
Qed.

Lemma before_app_keep c A B :
  count_byte c A = 0 -> before c (A +:+ B) = A +:+ before c B.
Proof.
  induction A as [|x A IH]; [done|]. rewrite !app_cons. simpl.
  destruct (Ascii.eqb x c); [done|]. simpl. intros H. by rewrite IH.
Qed.

Lemma scheme_no_hash S : scheme_ok S = true -> count_byte "#" S = 0.
Proof.
  destruct S as [|c S]; [done|]. simpl. intros [Hc HS]%andb_true_iff.
  assert (forall x, scheme_byte x = true -> Ascii.eqb x "#" = false) as Hb.
  { intros x. destruct x as [[] [] [] [] [] [] [] []]; vm_compute; done. }
  rewrite (Hb c (letter_scheme_byte c Hc)). simpl.
  induction S as [|x S IH]; [done|]. simpl in *.
  apply andb_true_iff in HS as [Hx HS]. by rewrite (Hb x Hx), IH.
Qed.

(** [Parse] keeps a well-formed scheme (in lower case). *)
Lemma Parse_Scheme S tail u :
  scheme_ok S = true ->
  Parse (S +:+ ":" +:+ tail) = Ok u -> u.(Scheme) = ToLower S.
Proof.
  intros HS. unfold Parse.
  pose proof (Cut_byte "#" (S +:+ ":" +:+ tail)) as Hcut.
  destruct (Cut (S +:+ ":" +:+ tail) "#") as [[u0 frag] found].
  cbn [fst] in Hcut. subst u0.
  rewrite (before_app_keep "#" S _ (scheme_no_hash S HS)).
  change (before "#" (":" +:+ tail)) with (":" +:+ before "#" tail).
  intros (url & Hurl & Hfrag)%bind_Ok.
  apply (parse_Scheme _ _ S (before "#" tail)) in Hurl.
  - destruct (String.eqb frag ""); [by injection Hfrag as <-|].
    apply setFragment_Scheme in Hfrag as [-> _]. done.
  - by apply getScheme_found.
  - destruct S as [|c S]; [done|]. rewrite app_cons. simpl.
    destruct (Ascii.eqb c "*"); [|done].
    destruct S; rewrite ?app_cons, ?app_nil_l; done.
Qed.

(** [http.Redirect] leaves a URL that starts with a scheme as it is, up to
    the escaping of non-ASCII bytes. *)
Lemma Redirect_scheme r S tail code :
  scheme_ok S = true ->
  Redirect r (S +:+ ":" +:+ tail) code
  = http_Redirect (hexEscapeNonASCII (S +:+ ":" +:+ tail)) code.
Proof.
  intros HS. unfold Redirect.
  destruct (Parse (S +:+ ":" +:+ tail)) as [u|e] eqn:HP; [|done].
  rewrite (Parse_Scheme S tail u HS HP).
  by rewrite (scheme_ok_nonempty _ (ToLower_scheme_ok S HS)).
Qed.

(** So it leaves what the create handler stores for an absolute URL. *)
Lemma Redirect_stored r U u code :
  ParseRequestURI U = (Some u, None) ->
  u.(Scheme) <> "" ->
  Redirect r (URL_String u) code
  = http_Redirect (hexEscapeNonASCII (URL_String u)) code.
Proof.
  unfold ParseRequestURI.
  destruct (parse_viaRequest U) as [u'|e] eqn:HU; [|done].
  intros [= ->] Hne.
  destruct (parse_viaRequest_Scheme U u HU) as [H0|(sch & rest & Hg & Hs)];
    [done|].
  destruct (getScheme_ok U sch rest Hg) as [->|[Hok _]].
  { by rewrite Hs in Hne. }
  destruct (URL_String_prefix u) as [tail ->].
  { apply String.eqb_neq. done. }
  rewrite Hs. apply Redirect_scheme. by apply ToLower_scheme_ok.
Qed.

(** Stored URLs without scheme and host are not sent as they are: the
    lone asterisk gets a slash in front, doubled slashes and dot elements
    go, a relative URL is put under the directory of the request path. *)
Example Redirect_relative_targets :
  Redirect (Sample.expand "GET" "/abc") "*" StatusTemporaryRedirect
  = http_Redirect "/*" StatusTemporaryRedirect
  /\ Redirect (Sample.expand "GET" "/abc") "/x//y" StatusTemporaryRedirect
     = http_Redirect "/x/y" StatusTemporaryRedirect
  /\ Redirect (Sample.expand "GET" "/a/b/c") "../x/./y/?q=1"
       StatusTemporaryRedirect
     = http_Redirect "/a/x/y/?q=1" StatusTemporaryRedirect.
Proof. repeat split; vm_compute; reflexivity. Qed.

Lemma hexEscapeNonASCII_ascii s :
  all_bytes ascii_byte s = true -> hexEscapeNonASCII s = s.
Proof.
  induction s as [|c s IH]; [done|]. simpl.
  intros [Hc Hs]%andb_true_iff. unfold ascii_byte in Hc.
  apply N.ltb_lt in Hc.
  destruct (128 <=? code c)%N eqn:E; [apply N.leb_le in E; lia|].
  by rewrite IH.
Qed.


End RedirectFacts.

(** * The claims *)

Import Strings StringFacts SplitFacts Bytes ByteFacts NetUrl UrlFacts ParseFacts.
Import Smolink ProgramFacts RedirectFacts.

(** ** The create handler, after its guard *)

Section CreateHandler.
Variable v : variant.
Variable env : gmap string string.
Variable d : db.
Variables (fresh : string) (now : Z).
Variable r : Request.

Let authHeader : string := Get r.(Header) "Authorization".

Lemma create_no_scheme_word :
  Contains authHeader "Bearer " = false ->
  createLinkHandler v env d fresh now r
  = Done (d, http_Error "Unauthorized" StatusUnauthorized).
Proof.
  intros H. unfold createLinkHandler. fold authHeader.
  by rewrite guard_Contains, H.
Qed.

Lemma create_bad_token token :
  bearerToken authHeader = Done token ->
  validateAuthorization d token = false ->
  createLinkHandler v env d fresh now r
  = Done (d, http_Error "Unauthorized" StatusUnauthorized).
Proof.
  intros Ht Hv. unfold createLinkHandler. fold authHeader.
  rewrite guard_Contains, (bearerToken_Done _ _ Ht), Ht. simpl.
  by rewrite Hv.
Qed.

Lemma create_good_token token :
  bearerToken authHeader = Done token ->
  validateAuthorization d token = true ->
  createLinkHandler v env d fresh now r
  = if createMethod v r.(Method) then
      let '(url, err) := ParseRequestURI (Get r.(URL_Query) "url") in
      match err with
      | Some _ => Done (d, http_Error "Malformed URL" StatusBadRequest)
      | None =>
          u ← deref url;
          let '(d', (short, err)) := saveShortUrl env d fresh now (URL_String u) in
          match err with
          | Some _ =>
              Done (d', http_Error "Failed to create short url"
                                   StatusInternalServerError)
          | None =>
              Done (d', json_Encode "application/json"
                          (mkNewURLResponse short.(Value)
                             (match v with
                              | Base => None
                              | Enhanced => Some short.(Value)
                              end)))
          end
      end
    else Done (d, http_Error "Method not supported" StatusMethodNotAllowed).
Proof.
  intros Ht Hv. unfold createLinkHandler. fold authHeader.
  rewrite guard_Contains, (bearerToken_Done _ _ Ht), Ht. simpl negb. cbv iota.
  unfold mbind at 1, outcome_bind at 1. by rewrite Hv.
Qed.
End CreateHandler.

(** ** C9 and C5: the token taken from the Authorization header *)

(** C9.  A header that passes the guard of the create handler (it is not
    empty and holds the scheme word followed by a space) is split into
    at least two pieces, so reading piece 1 stays in range and yields a
    token. *)
Theorem bearer_index_in_range (authHeader : string) :
  (len authHeader <? 1) || negb (Contains authHeader "Bearer ") = false ->
  2 <= length (Split authHeader "Bearer ")
  /\ exists token, bearerToken authHeader = Done token.
Proof.
  rewrite guard_Contains. intros Hc%negb_false_iff. split.
  - by apply Split_length.
  - apply Contains_Index in Hc as [m Hm]. eexists. by apply bearerToken_found.
Qed.

Lemma bearer_index_in_range_witness :
  2 <= length (Split "Bearer secret" "Bearer ")
  /\ exists token, bearerToken "Bearer secret" = Done token.
Proof. apply (bearer_index_in_range "Bearer secret"). reflexivity. Defined.

(** C5, as amended.  When the header holds the scheme word, the token
    handed to validation starts right after its first instance and stops
    at the next instance, if there is one; it is the whole remainder only
    when the remainder holds no further instance. *)
Theorem bearer_token_piece (authHeader : string) :
  Contains authHeader "Bearer " = true ->
  exists m,
    Index authHeader "Bearer " = Some m
    /\ let rest := drop (m + len "Bearer ") authHeader in
       bearerToken authHeader = Done (Cut rest "Bearer ").1.1
       /\ (Contains rest "Bearer " = false -> bearerToken authHeader = Done rest).
Proof.
  intros [m Hm]%Contains_Index. exists m. split; [done|].
  cbv zeta. rewrite (bearerToken_found _ _ Hm). split; [done|].
  unfold Contains, Cut. by destruct (Index (drop _ authHeader) "Bearer ").
Qed.

Lemma bearer_token_piece_witness :
  exists m,
    Index "Bearer secret" "Bearer " = Some m
    /\ let rest := drop (m + len "Bearer ") "Bearer secret" in
       bearerToken "Bearer secret" = Done (Cut rest "Bearer ").1.1
       /\ (Contains rest "Bearer " = false -> bearerToken "Bearer secret" = Done rest).
Proof. apply (bearer_token_piece "Bearer secret"). reflexivity. Defined.

(** C5, as stated, fails: with a second instance of the scheme word in the
    header, the token is cut there and is not the whole remainder. *)
Lemma bearer_token_not_whole_remainder :
  let authHeader := "Bearer a Bearer b" in
  Contains authHeader "Bearer " = true
  /\ Index authHeader "Bearer " = Some 0
  /\ drop (0 + len "Bearer ") authHeader = "a Bearer b"
  /\ bearerToken authHeader = Done "a "
  /\ "a " <> "a Bearer b".
Proof. repeat split; done. Qed.

(** ** C6: token validation *)

(** C6, as amended.  [validateAuthorization] answers true exactly when at
    least one row of the authorization table holds the token; it answers
    false whenever the row lookup reports an error, which is the case when
    no row holds the token. *)
Theorem validateAuthorization_at_least_one (d : db) (token : string) :
  (validateAuthorization d token = true <-> 1 <= matching_rows d token)
  /\ (forall e, (select_key_where d token).2 = Some e ->
                validateAuthorization d token = false)
  /\ (matching_rows d token = 0 ->
      (select_key_where d token).2 = Some ErrNoRows
      /\ validateAuthorization d token = false).
Proof.
  split; [apply validateAuthorization_rows|]. split.
  - intros e. unfold validateAuthorization.
    destruct (select_key_where d token) as [k [e'|]]; done.
  - intros H0. pose proof H0 as Hf. apply find_matching_rows in Hf.
    unfold validateAuthorization, select_key_where. by rewrite Hf.
Qed.

(** C6, as stated, fails: with the token in two rows the answer is true,
    though it is not exactly one row that holds it. *)
Lemma validateAuthorization_two_rows :
  validateAuthorization Sample.store_twice "secret" = true
  /\ matching_rows Sample.store_twice "secret" = 2.
Proof. split; reflexivity. Qed.

(** ** C7: provisioning the default token *)

(** C7.  On an empty authorization table the provisioning inserts one row
    holding the fresh token and returns that token; on a table with a row
    it returns the empty string and no error and changes nothing.  So a
    second run never inserts, and any number of runs adds at most one
    row. *)
Theorem provisioning_idempotent (d : db) (fresh : string) (now : Z) :
  (d.(authorization) = [] ->
   generateDefaultAuthorizationToken d fresh now
   = (mkDb [mkAuthorizationRow 1 fresh now] d.(links), (fresh, None)))
  /\ (d.(authorization) <> [] ->
      generateDefaultAuthorizationToken d fresh now = (d, ("", None)))
  /\ (forall fresh' now',
        let d1 := (generateDefaultAuthorizationToken d fresh now).1 in
        generateDefaultAuthorizationToken d1 fresh' now' = (d1, ("", None)))
  /\ (forall runs,
        length (startups d runs).(authorization)
        <= Nat.max 1 (length d.(authorization))
        /\ length d.(authorization) <= length (startups d runs).(authorization)
        /\ (startups d runs).(links) = d.(links)).
Proof.
  repeat split.
  - destruct d as [rows l]. simpl. by intros ->.
  - apply provision_noop.
  - intros fresh' now'. cbv zeta. apply provision_noop, provision_leaves_row.
  - destruct runs as [|[f n] runs]; simpl; [lia|].
    rewrite startups_noop by apply provision_leaves_row.
    destruct d as [[|row rows] l]; simpl; lia.
  - destruct runs as [|[f n] runs]; simpl; [lia|].
    rewrite startups_noop by apply provision_leaves_row.
    destruct d as [[|row rows] l]; simpl; lia.
  - destruct runs as [|[f n] runs]; simpl; [done|].
    rewrite startups_noop by apply provision_leaves_row.
    by destruct d as [[|row rows] l].
Qed.

(** ** C3 and C8: looking a short path up *)

(** What the lookup does on a path that parses: it returns, with the
    stored URL when the path without its slashes (after decoding) is a key
    of [links], with [sql.ErrNoRows] when it is not. *)
Lemma getFullUrl_well_formed (d : db) (p : string) (u : URL) :
  ParseRequestURI p = (Some u, None) ->
  let token := ReplaceAll u.(Path) "/" "" in
  match d.(links) !! token with
  | Some row => getFullUrl d (mkShort p) = Done (row.(full_url), None)
  | None => getFullUrl d (mkShort p) = Done ("", Some ErrNoRows)
  end.
Proof.
  unfold ParseRequestURI. intros H. cbv zeta.
  pose proof (getFullUrl_cases d p) as Hg.
  destruct (parse_viaRequest p) as [u'|e]; [|done]. injection H as ->.
  rewrite Hg, ReplaceAll_byte. unfold select_full_url.
  by destruct (links d !! _).
Qed.

(** What the lookup does on a path that does not parse: the nil URL is
    dereferenced, and no error value is returned. *)
Lemma getFullUrl_malformed (d : db) (p : string) (e : error) :
  ParseRequestURI p = (None, Some e) ->
  getFullUrl d (mkShort p) = Panic NilPointerDereference.
Proof.
  unfold ParseRequestURI. intros H.
  pose proof (getFullUrl_cases d p) as Hg.
  by destruct (parse_viaRequest p).
Qed.

(** C3, at the failing input.  The path [/%zz] is not a well-formed URI
    path (a percent sign must be followed by two hexadecimal digits);
    [ParseRequestURI] reports that, and the lookup, instead of returning
    the error, panics. *)
Theorem getFullUrl_malformed_path_panics (d : db) :
  (exists e, ParseRequestURI "/%zz" = (None, Some e))
  /\ getFullUrl d (mkShort "/%zz") = Panic NilPointerDereference.
Proof.
  split; [by eexists|]. by apply (getFullUrl_malformed d "/%zz" _ eq_refl).
Qed.

(** The expand handler on a GET request whose path parses: 500 with the
    fixed body when no row matches, the 307 that [http.Redirect] makes of
    the stored URL when one does. *)
Lemma expand_well_formed (d : db) (hdr q : gmap string (list string))
    (p : string) (u : URL) :
  ParseRequestURI p = (Some u, None) ->
  let token := ReplaceAll u.(Path) "/" "" in
  expandLinkHandler d (mkRequest MethodGet hdr p q)
  = match d.(links) !! token with
    | Some row =>
        Done (Redirect (mkRequest MethodGet hdr p q) row.(full_url)
                StatusTemporaryRedirect)
    | None => Done (http_Error "Failed to get full url" StatusInternalServerError)
    end.
Proof.
  intros H. cbv zeta. pose proof (getFullUrl_well_formed d p u H) as Hg.
  cbv zeta in Hg. unfold expandLinkHandler. simpl.
  destruct (links d !! _); by rewrite Hg.
Qed.

(** C8, at the failing input.  A GET request for [/%zz] names a token that
    was never inserted, and its lookup does not succeed; the handler sends
    neither the 500 response nor a redirect: it panics. *)
Theorem expand_malformed_path_panics (d : db) (hdr q : gmap string (list string)) :
  expandLinkHandler d (mkRequest MethodGet hdr "/%zz" q)
  = Panic NilPointerDereference.
Proof.
  unfold expandLinkHandler. simpl String.eqb. cbv iota. simpl URL_Path.
  by rewrite (getFullUrl_malformed d "/%zz" _ eq_refl).
Qed.

(** ** C2 and C4: what the create handler refuses *)

(** C2, as amended.  A create request whose Authorization header does not
    hold the scheme word followed by a space, or whose extracted token is
    in no row of the authorization table, is answered 401 Unauthorized,
    and the store is the one before the request. *)
Theorem create_unauthorized (v : variant) (env : gmap string string) (d : db)
    (fresh : string) (now : Z) (r : Request) :
  let authHeader := Get r.(Header) "Authorization" in
  (Contains authHeader "Bearer " = false
   \/ exists token, bearerToken authHeader = Done token
                    /\ forall row, row ∈ d.(authorization) -> row.(key) <> token) ->
  createLinkHandler v env d fresh now r
  = Done (d, http_Error "Unauthorized" StatusUnauthorized).
Proof.
  cbv zeta. intros [H|(token & Ht & Hrows)].
  - by apply create_no_scheme_word.
  - apply (create_bad_token _ _ _ _ _ _ token Ht).
    destruct (validateAuthorization d token) eqn:E; [|done].
    apply validateAuthorization_rows, matching_rows_elem in E as (row & Hin & Hk).
    by destruct (Hrows row Hin).
Qed.

Lemma create_unauthorized_witness :
  createLinkHandler Enhanced Sample.env Sample.store Sample.fresh 7
    (Sample.create "POST" "Bearer guess" "https://example.com")
  = Done (Sample.store, http_Error "Unauthorized" StatusUnauthorized).
Proof.
  apply (create_unauthorized Enhanced Sample.env Sample.store Sample.fresh 7
           (Sample.create "POST" "Bearer guess" "https://example.com")).
  right. exists "guess". split; [reflexivity|].
  intros row [->|H]%elem_of_cons; [discriminate|]. by apply elem_of_nil in H.
Defined.

(** C2, as stated, fails: a header that does not start with the scheme
    word, but holds it further on in front of a stored token, is accepted;
    the answer is 200 and a link row is inserted. *)
Lemma create_scheme_word_inside_header :
  let r := Sample.create "POST" "xBearer secret" "https://example.com" in
  HasPrefix (Get r.(Header) "Authorization") "Bearer " = false
  /\ exists d' w,
       createLinkHandler Enhanced Sample.env Sample.store Sample.fresh 7 r
       = Done (d', w)
       /\ status w = StatusOK
       /\ Sample.store.(links) !! Sample.fresh = None
       /\ d'.(links) !! Sample.fresh = Some (mkLinkRow "https://example.com" 7).
Proof.
  split; [reflexivity|]. eexists _, _. split; [vm_compute; reflexivity|].
  repeat split; vm_compute; reflexivity.
Qed.

(** C4, as amended.  On a create request whose method the route does not
    serve (not POST nor GET; not POST in the earlier file), the answer is
    405 MethodNotAllowed when the request carries a valid bearer token,
    and 401 Unauthorized when it does not; the store is unchanged either
    way. *)
Theorem create_method_not_served (v : variant) (env : gmap string string) (d : db)
    (fresh : string) (now : Z) (r : Request) :
  createMethod v r.(Method) = false ->
  let authHeader := Get r.(Header) "Authorization" in
  (forall token,
     bearerToken authHeader = Done token ->
     validateAuthorization d token = true ->
     createLinkHandler v env d fresh now r
     = Done (d, http_Error "Method not supported" StatusMethodNotAllowed))
  /\ ((Contains authHeader "Bearer " = false
       \/ exists token, bearerToken authHeader = Done token
                        /\ validateAuthorization d token = false) ->
      createLinkHandler v env d fresh now r
      = Done (d, http_Error "Unauthorized" StatusUnauthorized)).
Proof.
  intros Hm. cbv zeta. split.
  - intros token Ht Hv. rewrite (create_good_token _ _ _ _ _ _ token Ht Hv).
    by rewrite Hm.
  - intros [H|(token & Ht & Hv)].
    + by apply create_no_scheme_word.
    + by apply (create_bad_token _ _ _ _ _ _ token).
Qed.

Lemma create_method_not_served_witness :
  let r := Sample.create "PUT" "Bearer secret" "https://example.com" in
  let authHeader := Get r.(Header) "Authorization" in
  (forall token,
     bearerToken authHeader = Done token ->
     validateAuthorization Sample.store token = true ->
     createLinkHandler Enhanced Sample.env Sample.store Sample.fresh 7 r
     = Done (Sample.store,
             http_Error "Method not supported" StatusMethodNotAllowed))
  /\ ((Contains authHeader "Bearer " = false
       \/ exists token, bearerToken authHeader = Done token
                        /\ validateAuthorization Sample.store token = false) ->
      createLinkHandler Enhanced Sample.env Sample.store Sample.fresh 7 r
      = Done (Sample.store, http_Error "Unauthorized" StatusUnauthorized)).
Proof.
  apply (create_method_not_served Enhanced Sample.env Sample.store Sample.fresh 7
           (Sample.create "PUT" "Bearer secret" "https://example.com")).
  reflexivity.
Defined.

(** C4, as stated, fails: a PUT request without an Authorization header is
    answered 401, not 405. *)
Lemma create_method_not_served_unauthorized :
  let r := Sample.create_anonymous "PUT" "https://example.com" in
  createMethod Enhanced r.(Method) = false
  /\ createMethod Base r.(Method) = false
  /\ createLinkHandler Enhanced Sample.env Sample.store Sample.fresh 7 r
     = Done (Sample.store, http_Error "Unauthorized" StatusUnauthorized)
  /\ createLinkHandler Base Sample.env Sample.store Sample.fresh 7 r
     = Done (Sample.store, http_Error "Unauthorized" StatusUnauthorized)
  /\ StatusUnauthorized <> StatusMethodNotAllowed.
Proof. repeat split; try reflexivity. discriminate. Qed.

(** ** C1: create, then expand *)




(** ** C10: slashes in the request path *)

(** C10.  Two request paths (each starts with a slash) that
    [ParseRequestURI] accepts and that are equal once every slash is
    removed make the lookup query the same token, and the lookup returns,
    with the same result for both. *)
Theorem lookup_ignores_slashes (d : db) (p q : string) (u w : URL) :
  HasPrefix p "/" = true ->
  HasPrefix q "/" = true ->
  ParseRequestURI p = (Some u, None) ->
  ParseRequestURI q = (Some w, None) ->
  ReplaceAll p "/" "" = ReplaceAll q "/" "" ->
  ReplaceAll u.(Path) "/" "" = ReplaceAll w.(Path) "/" ""
  /\ getFullUrl d (mkShort p) = getFullUrl d (mkShort q)
  /\ exists res, getFullUrl d (mkShort q) = Done res.
Proof.
  intros Hp Hq Hu Hw Heq.
  assert (Htok : ReplaceAll u.(Path) "/" "" = ReplaceAll w.(Path) "/" "").
  { rewrite !ReplaceAll_byte in *.
    unfold ParseRequestURI in Hu, Hw.
    destruct (parse_viaRequest p) as [u0|] eqn:Eu; [|done].
    destruct (parse_viaRequest q) as [w0|] eqn:Ew; [|done].
    injection Hu as ->. injection Hw as ->.
    apply (parse_request_path_Ok _ _ Hp) in Eu.
    apply (parse_request_path_Ok _ _ Hq) in Ew.
    apply unescape_remove_slash in Eu as (x & Hx & <-).
    apply unescape_remove_slash in Ew as (y & Hy & <-).
    rewrite before_remove_slash, Heq, <- before_remove_slash in Hx.
    congruence. }
  pose proof (getFullUrl_well_formed d p u Hu) as Gp.
  pose proof (getFullUrl_well_formed d q w Hw) as Gq.
  cbv zeta in Gp, Gq. rewrite Htok in Gp.
  split; [done|].
  destruct (links d !! ReplaceAll (Path w) "/" "") as [row|];
    rewrite Gp, Gq; eauto.
Qed.

Lemma lookup_ignores_slashes_witness :
  ReplaceAll "/ab/c" "/" "" = ReplaceAll "/abc" "/" ""
  /\ getFullUrl Sample.store_abc (mkShort "/ab/c")
     = getFullUrl Sample.store_abc (mkShort "/abc")
  /\ exists res, getFullUrl Sample.store_abc (mkShort "/abc") = Done res.
Proof.
  apply (lookup_ignores_slashes Sample.store_abc "/ab/c" "/abc"
           (mkURL "" "" None "" "/ab/c" "" false false "" "" "")
           (mkURL "" "" None "" "/abc" "" false false "" "" ""));
    reflexivity.
Defined.

(** ** Further properties of the handlers *)

(** X1.  The create handler never panics: whatever the request and the store,
    it returns a response (the index into the split header is in range,
    and the parsed URL is read only after its error was checked). *)
Theorem createLinkHandler_returns (v : variant) (env : gmap string string)
    (d : db) (fresh : string) (now : Z) (r : Request) :
  exists d' w, createLinkHandler v env d fresh now r = Done (d', w).
Proof.
  destruct (Contains (Get r.(Header) "Authorization") "Bearer ") eqn:Hc.
  - apply Contains_Index in Hc as [m Hm]. apply bearerToken_found in Hm.
    set (token := (Cut _ _).1.1) in Hm.
    destruct (validateAuthorization d token) eqn:Hv.
    + rewrite (create_good_token _ _ _ _ _ _ _ Hm Hv).
      destruct (createMethod v (Method r)); [|eauto].
      unfold ParseRequestURI.
      destruct (parse_viaRequest _) as [u|e]; [|eauto].
      simpl. unfold saveShortUrl, insert_link.
      destruct (links d !! fresh); eauto.
    + rewrite (create_bad_token _ _ _ _ _ _ _ Hm Hv). eauto.
  - rewrite create_no_scheme_word by done. eauto.
Qed.

(** X2.  The expand handler on a GET request whose path [ParseRequestURI]
    accepts.  When the path, decoded and without its slashes, is a key of
    [links], the answer is the 307 redirect that [http.Redirect] makes of
    the stored URL; for a stored URL that starts with a scheme and a colon
    its [Location] is the stored URL with every byte from [0x80] on
    percent-escaped (a stored URL without scheme and host is first made
    absolute against the request path and cleaned).  When there is no such
    key the answer is 500 with the body [Failed to get full url]. *)
Theorem expand_get_well_formed (d : db) (hdr q : gmap string (list string))
    (p : string) (u : URL) :
  ParseRequestURI p = (Some u, None) ->
  let token := ReplaceAll u.(Path) "/" "" in
  let r := mkRequest MethodGet hdr p q in
  (forall row, d.(links) !! token = Some row ->
     expandLinkHandler d r
     = Done (Redirect r row.(full_url) StatusTemporaryRedirect)
     /\ forall S tail,
          row.(full_url) = S +:+ ":" +:+ tail -> scheme_ok S = true ->
          expandLinkHandler d r
          = Done (http_Redirect (hexEscapeNonASCII row.(full_url))
                    StatusTemporaryRedirect))
  /\ (d.(links) !! token = None ->
      expandLinkHandler d r
      = Done (http_Error "Failed to get full url" StatusInternalServerError)).
Proof.
  intros Hu. cbv zeta. rewrite (expand_well_formed d hdr q p u Hu). cbv zeta.
  split.
  - intros row ->. split; [done|]. intros S tail -> HS.
    by rewrite Redirect_scheme.
  - by intros ->.
Qed.

Lemma expand_get_well_formed_witness :
  let token := ReplaceAll "/ab/c" "/" "" in
  let r := Sample.expand "GET" "/ab/c" in
  (forall row, Sample.store_abc.(links) !! token = Some row ->
     expandLinkHandler Sample.store_abc r
     = Done (Redirect r row.(full_url) StatusTemporaryRedirect)
     /\ forall S tail,
          row.(full_url) = S +:+ ":" +:+ tail -> scheme_ok S = true ->
          expandLinkHandler Sample.store_abc r
          = Done (http_Redirect (hexEscapeNonASCII row.(full_url))
                    StatusTemporaryRedirect))
  /\ (Sample.store_abc.(links) !! token = None ->
      expandLinkHandler Sample.store_abc r
      = Done (http_Error "Failed to get full url" StatusInternalServerError)).
Proof.
  apply (expand_get_well_formed Sample.store_abc ∅ ∅ "/ab/c"
           (mkURL "" "" None "" "/ab/c" "" false false "" "" "")).
  reflexivity.
Defined.

(** Any other method on the expand route is answered 405. *)
Theorem expand_other_method (d : db) (r : Request) :
  r.(Method) <> MethodGet ->
  expandLinkHandler d r
  = Done (http_Error "Method not supported" StatusMethodNotAllowed).
Proof.
  intros H%String.eqb_neq. unfold expandLinkHandler. by rewrite H.
Qed.

Lemma expand_other_method_witness :
  expandLinkHandler Sample.store_abc (Sample.expand "POST" "/abc")
  = Done (http_Error "Method not supported" StatusMethodNotAllowed).
Proof.
  apply (expand_other_method Sample.store_abc (Sample.expand "POST" "/abc")).
  discriminate.
Defined.

(** A create request with a valid token and a served method whose [url]
    parameter [ParseRequestURI] rejects is answered 400 with the body
    [Malformed URL], and nothing is stored. *)
Theorem create_malformed_url (v : variant) (env : gmap string string) (d : db)
    (fresh : string) (now : Z) (r : Request) (token : string) (e : error) :
  bearerToken (Get r.(Header) "Authorization") = Done token ->
  validateAuthorization d token = true ->
  createMethod v r.(Method) = true ->
  ParseRequestURI (Get r.(URL_Query) "url") = (None, Some e) ->
  createLinkHandler v env d fresh now r
  = Done (d, http_Error "Malformed URL" StatusBadRequest).
Proof.
  intros Ht Hv Hm Hu.
  by rewrite (create_good_token _ _ _ _ _ _ token Ht Hv), Hm, Hu.
Qed.

Lemma create_malformed_url_witness :
  createLinkHandler Base Sample.env Sample.store Sample.fresh 7
    (Sample.create "POST" "Bearer secret" "not-a-url")
  = Done (Sample.store, http_Error "Malformed URL" StatusBadRequest).
Proof.
  apply (create_malformed_url Base Sample.env Sample.store Sample.fresh 7
           (Sample.create "POST" "Bearer secret" "not-a-url") "secret"
           (UrlError "parse" "not-a-url" InvalidURIForRequest));
    reflexivity.
Defined.

(** * More about the handlers and the store *)

(** ** Shared lemmas *)

(** Every outcome of the create handler: a refusal that leaves the store
    alone, or a 200 that adds one link under the fresh identifier. *)
Lemma create_cases (v : variant) (env : gmap string string) (d : db)
    (fresh : string) (now : Z) (r : Request) :
  exists d' w,
    createLinkHandler v env d fresh now r = Done (d', w)
    /\ ((d' = d /\ status w <> StatusOK)
        \/ (status w = StatusOK
            /\ d.(links) !! fresh = None
            /\ exists u,
                 ParseRequestURI (Get r.(URL_Query) "url") = (Some u, None)
                 /\ w = json_Encode "application/json"
                          (mkNewURLResponse (baseURL env +:+ "/" +:+ fresh)
                             (match v with
                              | Base => None
                              | Enhanced => Some (baseURL env +:+ "/" +:+ fresh)
                              end))
                 /\ d' = mkDb d.(authorization)
                              (<[fresh := mkLinkRow (URL_String u) now]> d.(links)))).
Proof.
  destruct (Contains (Get r.(Header) "Authorization") "Bearer ") eqn:Hc.
  - apply Contains_Index in Hc as [m Hm]. apply bearerToken_found in Hm.
    set (token := (Cut _ _).1.1) in Hm.
    destruct (validateAuthorization d token) eqn:Hv.
    + rewrite (create_good_token _ _ _ _ _ _ _ Hm Hv).
      destruct (createMethod v (Method r));
        [|eexists _, _; split; [reflexivity|left; by split]].
      unfold ParseRequestURI.
      destruct (parse_viaRequest _) as [u|e];
        [|eexists _, _; split; [reflexivity|left; by split]].
      simpl. unfold saveShortUrl, insert_link.
      destruct (links d !! fresh) eqn:Hf.
      * eexists _, _; split; [reflexivity|left; by split].
      * eexists _, _; split; [reflexivity|right].
        split; [done|]. split; [done|]. exists u. by destruct v.
    + rewrite (create_bad_token _ _ _ _ _ _ _ Hm Hv).
      eexists _, _; split; [reflexivity|left; by split].
  - rewrite create_no_scheme_word by done.
    eexists _, _; split; [reflexivity|left; by split].
Qed.

(** [http.Redirect] answers with the status code it is given. *)
Lemma Redirect_code (r : Request) (url : string) (code : nat) (t : string)
    (c : nat) :
  Redirect r url code = http_Redirect t c ->
  c = code /\ Redirect r url code = http_Redirect t code.
Proof.
  intros H. assert (c = code) as ->; [|done].
  unfold Redirect in H. cbv zeta in H. congruence.
Qed.

(** The expand handler redirects only after a successful lookup of a
    stored row, to what [http.Redirect] makes of that row's URL. *)
Lemma expand_redirect_inv (d : db) (r : Request) (t : string) (c : nat) :
  expandLinkHandler d r = Done (http_Redirect t c) ->
  c = StatusTemporaryRedirect
  /\ r.(Method) = MethodGet
  /\ exists u row,
       ParseRequestURI r.(URL_Path) = (Some u, None)
       /\ d.(links) !! remove_byte "/" u.(Path) = Some row
       /\ Redirect r row.(full_url) StatusTemporaryRedirect
          = http_Redirect t StatusTemporaryRedirect.
Proof.
  unfold expandLinkHandler.
  destruct (String.eqb (Method r) MethodGet) eqn:Hm; [|done].
  apply String.eqb_eq in Hm.
  pose proof (getFullUrl_cases d (URL_Path r)) as Hg.
  unfold ParseRequestURI.
  destruct (parse_viaRequest (URL_Path r)) as [u|e]; rewrite Hg; [|done].
  unfold select_full_url.
  destruct (links d !! remove_byte "/" (Path u)) as [row|] eqn:Hrow; [|done].
  match goal with
  | |- _ -> ?G =>
      change (Done (Redirect r (full_url row) StatusTemporaryRedirect)
              = Done (http_Redirect t c) -> G)
  end.
  intros H.
  assert (Redirect r (full_url row) StatusTemporaryRedirect
          = http_Redirect t c) as [-> H']%Redirect_code by congruence.
  repeat split; try done. by exists u, row.
Qed.

Lemma expand_redirect_mono (d d' : db) (r : Request) (t : string) (c : nat) :
  d.(links) ⊆ d'.(links) ->
  expandLinkHandler d r = Done (http_Redirect t c) ->
  expandLinkHandler d' r = Done (http_Redirect t c).
Proof.
  intros Hsub (-> & Hm & u & row & Hu & Hrow & Hred)%expand_redirect_inv.
  destruct r as [m hdr p q]. simpl in *. subst m.
  rewrite (expand_well_formed d' hdr q p u Hu). cbv zeta.
  rewrite ReplaceAll_byte.
  by rewrite (lookup_weaken _ _ _ _ Hrow Hsub), Hred.
Qed.

(** A run of create requests returns, keeps the authorization table, and
    only adds links. *)
Lemma createRequests_grow (v : variant) (env : gmap string string)
    (calls : list (string * Z * Request)) (d : db) :
  exists d', createRequests v env d calls = Done d'
             /\ d'.(authorization) = d.(authorization)
             /\ d.(links) ⊆ d'.(links).
Proof.
  revert d; induction calls as [|[[fresh now] r] calls IH]; intros d.
  - by exists d.
  - simpl. destruct (create_cases v env d fresh now r) as (d1 & w & -> & Hcase).
    simpl. destruct (IH d1) as (d' & -> & Ha & Hl). exists d'.
    split; [done|].
    destruct Hcase as [[-> _]|(_ & Hf & u & _ & _ & ->)]; [done|].
    simpl in *. split; [done|].
    etrans; [|exact Hl]. by apply insert_subseteq.
Qed.

(** The lookup on a request path, by what the path holds. *)
Lemma getFullUrl_path_cases (d : db) (p : string) :
  HasPrefix p "/" = true ->
  getFullUrl d (mkShort p) =
    if stringContainsCTLByte p then Panic NilPointerDereference
    else match unescape (before "?" p) encodePath with
         | Ok x => Done (select_full_url d (remove_byte "/" x))
         | Err _ => Panic NilPointerDereference
         end.
Proof.
  intros Hp. pose proof (parse_request_path p Hp) as H.
  pose proof (getFullUrl_cases d p) as Hg.
  destruct (stringContainsCTLByte p).
  - by rewrite H in Hg.
  - destruct (unescape (before "?" p) encodePath) as [x|e].
    + destruct H as (u & Hu & <-). by rewrite Hu in Hg.
    + by rewrite H in Hg.
Qed.

Lemma CTL_app s t :
  stringContainsCTLByte (s +:+ t)
  = stringContainsCTLByte s || stringContainsCTLByte t.
Proof.
  induction s as [|c s IH]; [done|]. rewrite app_cons. simpl.
  rewrite IH. by rewrite !orb_assoc.
Qed.

Lemma before_app_query s t : before "?" (s +:+ "?" +:+ t) = before "?" s.
Proof.
  induction s as [|c s IH]; [done|]. rewrite app_cons. simpl.
  destruct (Ascii.eqb c "?"); [done|]. by rewrite IH.
Qed.

Lemma HasPrefix_app_l s t p :
  HasPrefix s p = true -> HasPrefix (s +:+ t) p = true.
Proof.
  intros [x ->]%HasPrefix_app. apply HasPrefix_app. exists (x +:+ t).
  induction p as [|c p IH]; [done|]. rewrite !app_cons. by rewrite IH.
Qed.

(** A string without a colon has no scheme. *)
Lemma getScheme_loop_no_colon raw i s :
  count_byte ":" s = 0 -> getScheme_loop raw i s = Ok ("", raw).
Proof.
  revert i; induction s as [|c s IH]; intros i; [done|]. simpl.
  destruct (Ascii.eqb c ":") eqn:Ec; [done|]. simpl. intros Hs.
  destruct (between "a" "z" c || between "A" "Z" c); [by apply IH|].
  destruct (between "0" "9" c || _); [|done].
  destruct (i =? 0); [done|by apply IH].
Qed.

Lemma Contains_byte c s :
  Contains s (String c "") = false <-> count_byte c s = 0.
Proof.
  unfold Contains. destruct (Index s (String c "")) as [i|] eqn:Hi.
  - apply Index_byte_Some in Hi as (-> & _). split; [done|lia].
  - by apply Index_byte_None in Hi as (-> & _).
Qed.

Lemma before_not_slash s :
  HasPrefix s "/" = false -> HasPrefix (before "?" s) "/" = false.
Proof.
  destruct s as [|c s]; [done|]. rewrite HasPrefix_byte. simpl. intros Hc.
  destruct (Ascii.eqb c "?"); [done|]. by rewrite HasPrefix_byte.
Qed.

(** [ParseRequestURI] rejects the empty string and every string that has
    neither a colon nor a leading slash, the lone asterisk apart. *)
Lemma parse_rejects_schemeless U :
  U = "" \/ (U <> "*" /\ HasPrefix U "/" = false /\ Contains U ":" = false) ->
  exists e, ParseRequestURI U = (None, Some e).
Proof.
  intros H. unfold ParseRequestURI.
  enough (exists e, parse_viaRequest U = Err e) as [e ->] by eauto.
  destruct H as [->|(Hstar & Hslash & Hcolon)]; [by eexists|].
  apply Contains_byte in Hcolon.
  unfold parse_viaRequest.
  destruct (stringContainsCTLByte U); [by eexists|].
  destruct (String.eqb U "") eqn:E0; [by eexists|].
  apply String.eqb_neq in Hstar. rewrite Hstar.
  unfold getScheme. rewrite (getScheme_loop_no_colon U 0 U Hcolon).
  pose proof (query_split U) as Hq.
  pose proof (before_not_slash U Hslash) as Hb.
  unfold mbind, result_bind. cbv beta iota. change (ToLower "") with "".
  change (String.eqb "" "") with true.
  destruct (HasSuffix U "?" && (Count U "?" =? 1)).
  - rewrite Hq, Hb. by eexists.
  - destruct (Cut U "?") as [[b a] f]. cbn [fst] in Hq. subst b.
    rewrite Hb. by eexists.
Qed.

(** A UUID string holds no capital B, so it does not hold the scheme word. *)
Lemma uuid_no_scheme_word k :
  uuid_string k = true -> Contains k "Bearer " = false.
Proof.
  unfold uuid_string, Contains. intros Hk.
  enough (Index k "Bearer " = None) as -> by done.
  induction k as [|c k IH]; [done|].
  simpl in Hk. apply andb_true_iff in Hk as [Hc Hk].
  rewrite Index_unfold, HasPrefix_cons.
  assert (Ascii.eqb c "B" = false) as ->.
  { destruct c as [[] [] [] [] [] [] [] []]; vm_compute in Hc |- *; done. }
  simpl. by rewrite (IH Hk).
Qed.

(** The usual header: the scheme word, then the token. *)
Lemma bearerToken_header t :
  Contains t "Bearer " = false -> bearerToken ("Bearer " +:+ t) = Done t.
Proof.
  intros Ht.
  assert (Index ("Bearer " +:+ t) "Bearer " = Some 0) as Hm.
  { rewrite Index_unfold.
    assert (HasPrefix ("Bearer " +:+ t) "Bearer " = true) as ->; [|done].
    apply HasPrefix_app. by exists t. }
  rewrite (bearerToken_found _ _ Hm).
  change (drop (0 + len "Bearer ") ("Bearer " +:+ t)) with t.
  unfold Cut. unfold Contains in Ht. by destruct (Index t "Bearer ").
Qed.

(** After provisioning on an empty table the fresh token, and no other,
    is valid. *)
Lemma provisioned_rows d fresh now :
  d.(authorization) = [] ->
  (generateDefaultAuthorizationToken d fresh now).1.(authorization)
  = [mkAuthorizationRow 1 fresh now]
  /\ (generateDefaultAuthorizationToken d fresh now).1.(links) = d.(links).
Proof. destruct d as [rows l]. simpl. by intros ->. Qed.

Lemma validate_single id0 k t0 l token :
  validateAuthorization (mkDb [mkAuthorizationRow id0 k t0] l) token = true
  <-> token = k.
Proof.
  unfold validateAuthorization, select_key_where. simpl.
  destruct (String.eqb k token) eqn:E.
  - apply String.eqb_eq in E as ->. by rewrite String.eqb_refl.
  - apply String.eqb_neq in E. split; [done|]. by intros ->.
Qed.

Lemma count_remove_byte c s : count_byte c (remove_byte c s) = 0.
Proof.
  induction s as [|x s IH]; [done|]. simpl.
  destruct (Ascii.eqb x c) eqn:E; [done|]. simpl. by rewrite E.
Qed.

(** Create with a valid token, a served method, an accepted URL with a
    scheme and an unused identifier over the short alphabet: the link is
    stored and the path made of a slash and the identifier redirects to
    it, bytes from [0x80] on escaped. *)
Lemma create_stores_and_expands (v : variant) (env : gmap string string) (d : db)
    (fresh : string) (now : Z) (r : Request) (token : string) (u : URL) :
  bearerToken (Get r.(Header) "Authorization") = Done token ->
  validateAuthorization d token = true ->
  createMethod v r.(Method) = true ->
  ParseRequestURI (Get r.(URL_Query) "url") = (Some u, None) ->
  u.(Scheme) <> "" ->
  shortuuid_key fresh = true ->
  d.(links) !! fresh = None ->
  exists d' w,
    createLinkHandler v env d fresh now r
    = Done (d', json_Encode "application/json" w)
    /\ w.(Url) = baseURL env +:+ "/" +:+ fresh
    /\ d'.(links) = <[fresh := mkLinkRow (URL_String u) now]> d.(links)
    /\ forall hdr q,
         expandLinkHandler d' (mkRequest MethodGet hdr ("/" +:+ fresh) q)
         = Done (http_Redirect (hexEscapeNonASCII (URL_String u))
                   StatusTemporaryRedirect).
Proof.
  intros Ht Hv Hm Hu Hscheme Hk Hfresh.
  rewrite (create_good_token _ _ _ _ _ _ token Ht Hv), Hm, Hu.
  simpl deref. unfold mbind, outcome_bind, saveShortUrl, insert_link.
  rewrite Hfresh. eexists _, _. split; [reflexivity|].
  split; [reflexivity|]. split; [reflexivity|].
  intros hdr q. destruct (parse_key_path fresh Hk) as (u' & Hu' & Hp).
  rewrite (expand_well_formed _ hdr q _ u' Hu'). cbv zeta. rewrite Hp.
  simpl links. rewrite lookup_insert_eq. simpl full_url.
  by rewrite (Redirect_stored _ _ u _ Hu Hscheme).
Qed.

(** ** The store under create requests *)

(** X3.  Whatever the request, the create handler leaves the authorization
    table as it is; it leaves the links as they are unless it answers 200,
    and then the identifier was unused and the only change is the new link
    under it, holding the accepted URL written back and the clock value. *)
Theorem create_effect_on_store (v : variant) (env : gmap string string) (d : db)
    (fresh : string) (now : Z) (r : Request) :
  exists d' w,
    createLinkHandler v env d fresh now r = Done (d', w)
    /\ d'.(authorization) = d.(authorization)
    /\ (status w <> StatusOK -> d' = d)
    /\ (status w = StatusOK ->
        d.(links) !! fresh = None
        /\ exists u,
             ParseRequestURI (Get r.(URL_Query) "url") = (Some u, None)
             /\ d'.(links)
                = <[fresh := mkLinkRow (URL_String u) now]> d.(links)).
Proof.
  destruct (create_cases v env d fresh now r) as (d' & w & Hrun & Hcase).
  exists d', w. split; [done|].
  destruct Hcase as [[-> Hs]|(Hs & Hf & u & Hu & _ & ->)].
  - repeat split; done.
  - repeat split; try done. exists u. by split.
Qed.

(** X4.  When the identifier drawn for a create request is already a key
    of [links], the request (valid token, served method, accepted URL) is
    answered 500 with the body [Failed to create short url], and the
    store, the link already under that key included, is unchanged. *)
Theorem create_collision_keeps_link (v : variant) (env : gmap string string)
    (d : db) (fresh : string) (now : Z) (r : Request) (token : string) (u : URL)
    (row : linkRow) :
  bearerToken (Get r.(Header) "Authorization") = Done token ->
  validateAuthorization d token = true ->
  createMethod v r.(Method) = true ->
  ParseRequestURI (Get r.(URL_Query) "url") = (Some u, None) ->
  d.(links) !! fresh = Some row ->
  createLinkHandler v env d fresh now r
  = Done (d, http_Error "Failed to create short url" StatusInternalServerError).
Proof.
  intros Ht Hv Hm Hu Hrow.
  rewrite (create_good_token _ _ _ _ _ _ token Ht Hv), Hm, Hu.
  simpl deref. unfold mbind, outcome_bind, saveShortUrl, insert_link.
  by rewrite Hrow.
Qed.

Lemma create_collision_keeps_link_witness :
  createLinkHandler Enhanced Sample.env Sample.store_abc "abc" 7
    (Sample.create "POST" "Bearer secret" "https://other.example")
  = Done (Sample.store_abc,
          http_Error "Failed to create short url" StatusInternalServerError).
Proof.
  apply (create_collision_keeps_link Enhanced Sample.env Sample.store_abc "abc" 7
           (Sample.create "POST" "Bearer secret" "https://other.example")
           "secret"
           (mkURL "https" "" None "other.example" "" "" false false "" "" "")
           (mkLinkRow "https://example.com" 0));
    reflexivity.
Defined.

(** X5.  Any run of create requests returns; it leaves the authorization
    table unchanged and keeps every link, so a request that the expand
    handler answered with a redirect before the run gets the same redirect
    after it. *)
Theorem redirects_survive_creates (v : variant) (env : gmap string string)
    (d : db) (calls : list (string * Z * Request)) :
  exists d',
    createRequests v env d calls = Done d'
    /\ d'.(authorization) = d.(authorization)
    /\ (forall k row, d.(links) !! k = Some row -> d'.(links) !! k = Some row)
    /\ forall r t c,
         expandLinkHandler d r = Done (http_Redirect t c) ->
         expandLinkHandler d' r = Done (http_Redirect t c).
Proof.
  destruct (createRequests_grow v env calls d) as (d' & Hrun & Ha & Hl).
  exists d'. repeat split; try done.
  - intros k row Hk. by apply (lookup_weaken _ _ _ _ Hk Hl).
  - intros r t c. by apply expand_redirect_mono.
Qed.

(** X6.  Short URLs are not handed out twice: if a create request was
    answered with a short URL, then after any further run of create
    requests a create request that is answered with a short URL gets
    a different one (under the same BASE_URL). *)
Theorem short_urls_never_reused (v1 v v2 : variant) (env : gmap string string)
    (d d1 d2 d3 : db) (f1 f2 : string) (n1 n2 : Z) (r1 r2 : Request)
    (calls : list (string * Z * Request)) (c1 c2 : string)
    (w1 w2 : newURLResponse) :
  createLinkHandler v1 env d f1 n1 r1 = Done (d1, json_Encode c1 w1) ->
  createRequests v env d1 calls = Done d2 ->
  createLinkHandler v2 env d2 f2 n2 r2 = Done (d3, json_Encode c2 w2) ->
  w1.(Url) <> w2.(Url).
Proof.
  intros H1 Hrun H2.
  destruct (create_cases v1 env d f1 n1 r1) as (d1' & w1' & E1 & C1).
  rewrite H1 in E1. injection E1 as <- <-.
  destruct C1 as [[_ Hs]|(_ & _ & u1 & _ & Hw1 & ->)]; [done|].
  destruct (createRequests_grow v env calls
              (mkDb d.(authorization)
                 (<[f1 := mkLinkRow (URL_String u1) n1]> d.(links))))
    as (d2' & E & _ & Hl).
  rewrite Hrun in E. injection E as <-. simpl in Hl.
  destruct (create_cases v2 env d2 f2 n2 r2) as (d3' & w2' & E2 & C2).
  rewrite H2 in E2. injection E2 as <- <-.
  destruct C2 as [[_ Hs]|(_ & Hf2 & u2 & _ & Hw2 & _)]; [done|].
  injection Hw1 as _ ->. injection Hw2 as _ ->. simpl.
  intros Heq. apply (inj (String.app (baseURL env))) in Heq.
  apply (inj (String.app "/")) in Heq. subst f2.
  assert (links d2 !! f1 = Some (mkLinkRow (URL_String u1) n1)) as Hin
    by (apply (lookup_weaken _ _ _ _ (lookup_insert_eq _ _ _) Hl)).
  congruence.
Qed.

Lemma short_urls_never_reused_witness :
  "https://short.example/mhvXdrZT4jP5T8vBxuvm75"
  <> "https://short.example/KwSysDpxcBU9FNhGkn2dCf".
Proof.
  apply (short_urls_never_reused Enhanced Enhanced Base Sample.env
           Sample.store
           (mkDb [mkAuthorizationRow 1 "secret" 0]
                 {[ Sample.fresh := mkLinkRow "https://example.com" 7 ]})
           (mkDb [mkAuthorizationRow 1 "secret" 0]
                 {[ Sample.fresh := mkLinkRow "https://example.com" 7 ]})
           (mkDb [mkAuthorizationRow 1 "secret" 0]
                 (<[ "KwSysDpxcBU9FNhGkn2dCf" := mkLinkRow "https://example.org" 9 ]>
                    {[ Sample.fresh := mkLinkRow "https://example.com" 7 ]}))
           Sample.fresh "KwSysDpxcBU9FNhGkn2dCf" 7 9
           (Sample.create "POST" "Bearer secret" "https://example.com")
           (Sample.create "POST" "Bearer secret" "https://example.org")
           [(Sample.fresh, 8%Z,
             Sample.create "POST" "Bearer secret" "https://example.net")]
           "application/json" "application/json"
           (mkNewURLResponse "https://short.example/mhvXdrZT4jP5T8vBxuvm75"
              (Some "https://short.example/mhvXdrZT4jP5T8vBxuvm75"))
           (mkNewURLResponse "https://short.example/KwSysDpxcBU9FNhGkn2dCf" None));
    vm_compute; reflexivity.
Defined.

(** ** The lookup on request paths *)

(** X7.  On a path that starts with a slash and holds no control byte,
    whose bytes before the first question mark percent-decode to [x], the
    lookup queries [x] without its slashes and returns what the store
    answers: the stored URL, or [sql.ErrNoRows]. *)
Theorem getFullUrl_request_path (d : db) (p x : string) :
  HasPrefix p "/" = true ->
  stringContainsCTLByte p = false ->
  unescape (before "?" p) encodePath = Ok x ->
  getFullUrl d (mkShort p) =
    Done (match d.(links) !! remove_byte "/" x with
          | Some row => (row.(full_url), None)
          | None => ("", Some ErrNoRows)
          end).
Proof.
  intros Hp Hc Hx. by rewrite (getFullUrl_path_cases d p Hp), Hc, Hx.
Qed.

Lemma getFullUrl_request_path_witness :
  getFullUrl Sample.store_abc (mkShort "/a%62/c?x") =
    Done (match Sample.store_abc.(links) !! remove_byte "/" "/ab/c" with
          | Some row => (row.(full_url), None)
          | None => ("", Some ErrNoRows)
          end).
Proof.
  apply (getFullUrl_request_path Sample.store_abc "/a%62/c?x" "/ab/c");
    reflexivity.
Defined.

(** X8.  A question mark and anything after it (without control bytes)
    appended to a request path do not change the lookup. *)
Theorem getFullUrl_ignores_query (d : db) (p q : string) :
  HasPrefix p "/" = true ->
  stringContainsCTLByte q = false ->
  getFullUrl d (mkShort (p +:+ "?" +:+ q)) = getFullUrl d (mkShort p).
Proof.
  intros Hp Hq.
  rewrite (getFullUrl_path_cases d p Hp).
  rewrite (getFullUrl_path_cases d _ (HasPrefix_app_l p _ "/" Hp)).
  rewrite !CTL_app, Hq, before_app_query. simpl stringContainsCTLByte.
  by rewrite !orb_false_r.
Qed.

Lemma getFullUrl_ignores_query_witness :
  getFullUrl Sample.store_abc (mkShort ("/abc" +:+ "?" +:+ "utm=1"))
  = getFullUrl Sample.store_abc (mkShort "/abc").
Proof.
  apply (getFullUrl_ignores_query Sample.store_abc "/abc" "utm=1"); reflexivity.
Defined.

(** X14.  The expand handler redirects only from stored URLs: a redirect
    is always a 307 in answer to a GET, and its [Location] is what
    [http.Redirect] makes of the [full_url] of a row of [links] whose key
    holds no slash; when that [full_url] starts with a scheme and a colon,
    the [Location] is the [full_url] itself with every byte from [0x80] on
    percent-escaped. *)
Theorem expand_redirects_only_to_stored (d : db) (r : Request) (t : string)
    (c : nat) :
  expandLinkHandler d r = Done (http_Redirect t c) ->
  c = StatusTemporaryRedirect
  /\ r.(Method) = MethodGet
  /\ exists k row,
       d.(links) !! k = Some row
       /\ count_byte "/" k = 0
       /\ Redirect r row.(full_url) StatusTemporaryRedirect
          = http_Redirect t StatusTemporaryRedirect
       /\ forall S tail,
            row.(full_url) = S +:+ ":" +:+ tail -> scheme_ok S = true ->
            t = hexEscapeNonASCII row.(full_url).
Proof.
  intros (-> & Hm & u & row & _ & Hrow & Ht)%expand_redirect_inv.
  repeat split; try done.
  exists (remove_byte "/" u.(Path)), row.
  split; [done|]. split; [apply count_remove_byte|]. split; [done|].
  intros S tail HS Hok. rewrite HS, Redirect_scheme in Ht by done.
  rewrite HS. congruence.
Qed.

Lemma expand_redirects_only_to_stored_witness :
  StatusTemporaryRedirect = StatusTemporaryRedirect
  /\ (Sample.expand "GET" "/abc").(Method) = MethodGet
  /\ exists k row,
       Sample.store_abc.(links) !! k = Some row
       /\ count_byte "/" k = 0
       /\ Redirect (Sample.expand "GET" "/abc") row.(full_url)
            StatusTemporaryRedirect
          = http_Redirect "https://example.com" StatusTemporaryRedirect
       /\ forall S tail,
            row.(full_url) = S +:+ ":" +:+ tail -> scheme_ok S = true ->
            "https://example.com" = hexEscapeNonASCII row.(full_url).
Proof.
  apply (expand_redirects_only_to_stored Sample.store_abc
           (Sample.expand "GET" "/abc") "https://example.com"
           StatusTemporaryRedirect).
  reflexivity.
Defined.

(** ** Tokens *)

(** X9.  The usual header round trip: from the header made of the scheme
    word, a space and a token that does not itself hold the scheme word
    followed by a space, the create handler extracts exactly the token. *)
Theorem bearer_header_round_trip (token : string) :
  Contains token "Bearer " = false ->
  bearerToken ("Bearer " +:+ token) = Done token.
Proof. apply bearerToken_header. Qed.

Lemma bearer_header_round_trip_witness :
  bearerToken ("Bearer " +:+ "0b0f7c1e-8a5d-4c55-9c1b-3f2a6d7e8f90")
  = Done "0b0f7c1e-8a5d-4c55-9c1b-3f2a6d7e8f90".
Proof.
  apply (bearer_header_round_trip "0b0f7c1e-8a5d-4c55-9c1b-3f2a6d7e8f90").
  reflexivity.
Defined.

(** X10.  After the provisioning has run on an empty authorization table,
    the token it returned is valid and every other token is not. *)
Theorem provisioned_token_is_the_valid_one (d : db) (fresh : string) (now : Z)
    (token : string) :
  d.(authorization) = [] ->
  let '(d', (key, err)) := generateDefaultAuthorizationToken d fresh now in
  err = None /\ key = fresh
  /\ (validateAuthorization d' token = true <-> token = key).
Proof.
  intros Hd. destruct d as [rows l]. simpl in Hd. subst rows. simpl.
  repeat split; try done; by apply validate_single.
Qed.

Lemma provisioned_token_is_the_valid_one_witness :
  let '(d', (key, err)) :=
    generateDefaultAuthorizationToken (mkDb [] ∅)
      "0b0f7c1e-8a5d-4c55-9c1b-3f2a6d7e8f90" 3 in
  err = None /\ key = "0b0f7c1e-8a5d-4c55-9c1b-3f2a6d7e8f90"
  /\ (validateAuthorization d' "secret" = true <-> "secret" = key).
Proof.
  apply (provisioned_token_is_the_valid_one (mkDb [] ∅)
           "0b0f7c1e-8a5d-4c55-9c1b-3f2a6d7e8f90" 3 "secret").
  reflexivity.
Defined.

(** X11.  From a fresh installation of [main.go] to a working link: on a
    store whose authorization table is empty, provision the default token
    (a UUID); a create request (POST or GET) that presents it in the usual
    header, with an accepted URL that has a scheme and an unused short
    identifier, is answered with the short URL, and a GET of a slash
    followed by the identifier is redirected (307) to the stored URL,
    every byte from [0x80] on percent-escaped. *)
Theorem fresh_install_round_trip (env : gmap string string)
    (d : db) (key : string) (now0 : Z) (fresh : string) (now : Z)
    (r : Request) (u : URL) :
  d.(authorization) = [] ->
  uuid_string key = true ->
  Get r.(Header) "Authorization" = "Bearer " +:+ key ->
  createMethod Enhanced r.(Method) = true ->
  ParseRequestURI (Get r.(URL_Query) "url") = (Some u, None) ->
  u.(Scheme) <> "" ->
  shortuuid_key fresh = true ->
  d.(links) !! fresh = None ->
  let d1 := (generateDefaultAuthorizationToken d key now0).1 in
  exists d2 w,
    createLinkHandler Enhanced env d1 fresh now r
    = Done (d2, json_Encode "application/json" w)
    /\ w.(Url) = baseURL env +:+ "/" +:+ fresh
    /\ forall hdr q,
         expandLinkHandler d2 (mkRequest MethodGet hdr ("/" +:+ fresh) q)
         = Done (http_Redirect (hexEscapeNonASCII (URL_String u))
                   StatusTemporaryRedirect).
Proof.
  intros Hd Hkey Hh Hm Hu Hscheme Hf Hfresh. cbv zeta.
  destruct (provisioned_rows d key now0 Hd) as [Hrows Hlinks].
  set (d1 := (generateDefaultAuthorizationToken d key now0).1) in *.
  destruct (create_stores_and_expands Enhanced env d1 fresh now r key u)
    as (d2 & w & Hrun & Hurl & _ & Hexp); try done.
  4: by exists d2, w.
  - rewrite Hh. apply bearerToken_header. by apply uuid_no_scheme_word.
  - destruct d1 as [rows l]. simpl in Hrows. subst rows. by apply validate_single.
  - by rewrite Hlinks.
Qed.

Lemma fresh_install_round_trip_witness :
  let d1 := (generateDefaultAuthorizationToken (mkDb [] ∅)
               "0b0f7c1e-8a5d-4c55-9c1b-3f2a6d7e8f90" 3).1 in
  exists d2 w,
    createLinkHandler Enhanced Sample.env d1 Sample.fresh 7
      (Sample.create "POST" "Bearer 0b0f7c1e-8a5d-4c55-9c1b-3f2a6d7e8f90"
         "https://example.com/a?b=c")
    = Done (d2, json_Encode "application/json" w)
    /\ w.(Url) = baseURL Sample.env +:+ "/" +:+ Sample.fresh
    /\ forall hdr q,
         expandLinkHandler d2 (mkRequest MethodGet hdr ("/" +:+ Sample.fresh) q)
         = Done (http_Redirect "https://example.com/a?b=c"
                   StatusTemporaryRedirect).
Proof.
  apply (fresh_install_round_trip Sample.env (mkDb [] ∅)
           "0b0f7c1e-8a5d-4c55-9c1b-3f2a6d7e8f90" 3 Sample.fresh 7
           (Sample.create "POST" "Bearer 0b0f7c1e-8a5d-4c55-9c1b-3f2a6d7e8f90"
              "https://example.com/a?b=c")
           (mkURL "https" "" None "example.com" "/a" "" false false "b=c" "" ""));
    try reflexivity.
  discriminate.
Defined.

(** ** What the create handler accepts as a URL *)

(** X12.  A create request with a valid token and a served method is
    answered 400 with the body [Malformed URL], and nothing is stored,
    when its [url] parameter is missing or empty, or when it has neither a
    colon nor a leading slash (as a host name without a scheme) and is not
    the lone asterisk. *)
Theorem create_rejects_schemeless_url (v : variant) (env : gmap string string)
    (d : db) (fresh : string) (now : Z) (r : Request) (token : string) :
  bearerToken (Get r.(Header) "Authorization") = Done token ->
  validateAuthorization d token = true ->
  createMethod v r.(Method) = true ->
  let U := Get r.(URL_Query) "url" in
  U = "" \/ (U <> "*" /\ HasPrefix U "/" = false /\ Contains U ":" = false) ->
  createLinkHandler v env d fresh now r
  = Done (d, http_Error "Malformed URL" StatusBadRequest).
Proof.
  intros Ht Hv Hm U HU.
  destruct (parse_rejects_schemeless U HU) as [e He]. fold U in He.
  rewrite (create_good_token _ _ _ _ _ _ token Ht Hv), Hm. fold U.
  by rewrite He.
Qed.

Lemma create_rejects_schemeless_url_witness :
  createLinkHandler Enhanced Sample.env Sample.store Sample.fresh 7
    (Sample.create "GET" "Bearer secret" "example.com/page?x=1")
  = Done (Sample.store, http_Error "Malformed URL" StatusBadRequest).
Proof.
  apply (create_rejects_schemeless_url Enhanced Sample.env Sample.store
           Sample.fresh 7
           (Sample.create "GET" "Bearer secret" "example.com/page?x=1")
           "secret"); try reflexivity.
  right. repeat split; [discriminate|..]; reflexivity.
Defined.

(** ** The two source files *)

(** X13.  On a POST request the two versions of the create handler do the
    same to the store and answer with the same status; their answers are
    equal, except that a 200 of the later version carries the short URL a
    second time, in [Shorturl]. *)
Theorem variants_agree_on_post (env : gmap string string) (d : db)
    (fresh : string) (now : Z) (hdr : gmap string (list string))
    (path : string) (q : gmap string (list string)) :
  let r := mkRequest MethodPost hdr path q in
  exists d' w1 w2,
    createLinkHandler Base env d fresh now r = Done (d', w1)
    /\ createLinkHandler Enhanced env d fresh now r = Done (d', w2)
    /\ status w1 = status w2
    /\ (w1 = w2
        \/ exists short,
             w1 = json_Encode "application/json" (mkNewURLResponse short None)
             /\ w2 = json_Encode "application/json"
                       (mkNewURLResponse short (Some short))).
Proof.
  cbv zeta. set (r := mkRequest MethodPost hdr path q).
  destruct (Contains (Get r.(Header) "Authorization") "Bearer ") eqn:Hc.
  - apply Contains_Index in Hc as [m Hm]. apply bearerToken_found in Hm.
    set (token := (Cut _ _).1.1) in Hm.
    destruct (validateAuthorization d token) eqn:Hv.
    + rewrite !(create_good_token _ _ _ _ _ _ _ Hm Hv).
      change (createMethod Base (Method r)) with true.
      change (createMethod Enhanced (Method r)) with true. cbv iota.
      unfold ParseRequestURI.
      destruct (parse_viaRequest _) as [u|e];
        [|eexists _, _, _; repeat split; by left].
      simpl. unfold saveShortUrl, insert_link.
      destruct (links d !! fresh).
      * eexists _, _, _; repeat split; by left.
      * eexists _, _, _; repeat split. right. by eexists.
    + rewrite !(create_bad_token _ _ _ _ _ _ _ Hm Hv).
      eexists _, _, _; repeat split; by left.
  - rewrite !create_no_scheme_word by done.
    eexists _, _, _; repeat split; by left.
Qed.

(** X15.  While the authorization table is empty (as in the earlier
    version, which never provisions a token, until one is inserted by
    hand), every create request is answered 401 and nothing is stored. *)
Theorem create_without_tokens (v : variant) (env : gmap string string) (d : db)
    (fresh : string) (now : Z) (r : Request) :
  d.(authorization) = [] ->
  createLinkHandler v env d fresh now r
  = Done (d, http_Error "Unauthorized" StatusUnauthorized).
Proof.
  intros Hd.
  destruct (Contains (Get r.(Header) "Authorization") "Bearer ") eqn:Hc.
  - apply Contains_Index in Hc as [m Hm]. apply bearerToken_found in Hm.
    apply (create_bad_token _ _ _ _ _ _ _ Hm).
    unfold validateAuthorization, select_key_where. by rewrite Hd.
  - by apply create_no_scheme_word.
Qed.

Lemma create_without_tokens_witness :
  createLinkHandler Base Sample.env (mkDb [] ∅) Sample.fresh 7
    (Sample.create "POST" "Bearer secret" "https://example.com")
  = Done (mkDb [] ∅, http_Error "Unauthorized" StatusUnauthorized).
Proof.
  apply (create_without_tokens Base Sample.env (mkDb [] ∅) Sample.fresh 7
           (Sample.create "POST" "Bearer secret" "https://example.com")).
  reflexivity.
Defined.

(** ** Plain URLs are stored byte for byte *)

Lemma all_bytes_impl (P Q : ascii -> bool) s :
  (forall c, P c = true -> Q c = true) ->
  all_bytes P s = true -> all_bytes Q s = true.
Proof.
  intros HPQ. induction s as [|c s IH]; [done|]. simpl.
  intros [Hc Hs]%andb_true_iff. by rewrite (HPQ c Hc), IH.
Qed.


Lemma quiet_CTL s : all_bytes quiet s = true -> stringContainsCTLByte s = false.
Proof.
  induction s as [|c s IH]; [done|]. simpl.
  intros [Hc Hs]%andb_true_iff. rewrite (IH Hs).
  unfold quiet in Hc. apply andb_true_iff in Hc as [Hc _].
  apply negb_true_iff in Hc. by rewrite orb_false_r.
Qed.

Lemma quiet_count c s :
  byte_in c "%+?@:[" = true -> all_bytes quiet s = true -> count_byte c s = 0.
Proof.
  intros Hc. induction s as [|x s IH]; [done|]. simpl.
  intros [Hx Hs]%andb_true_iff. rewrite (IH Hs).
  destruct (Ascii.eqb x c) eqn:E; [|done]. apply Ascii.eqb_eq in E as ->.
  unfold quiet in Hx. apply andb_true_iff in Hx as [_ Hx].
  by rewrite Hc in Hx.
Qed.

Lemma host_byte_facts c :
  isAlnum c || byte_in c ".-" = true ->
  quiet c = true /\ Ascii.eqb c "/" = false /\ Ascii.eqb c "[" = false
  /\ Ascii.eqb c "%" = false /\ Ascii.eqb c "+" = false
  /\ shouldEscape c encodeHost = false.
Proof. destruct c as [[] [] [] [] [] [] [] []]; vm_compute; intros; done. Qed.

Lemma path_byte_facts c :
  isAlnum c || byte_in c "-._~/" = true ->
  quiet c = true /\ Ascii.eqb c "%" = false
  /\ shouldEscape c encodePath = false.
Proof. destruct c as [[] [] [] [] [] [] [] []]; vm_compute; intros; done. Qed.

Lemma scheme_byte_facts c :
  between "a" "z" c = true ->
  quiet c = true /\ lower_byte c = c.
Proof. destruct c as [[] [] [] [] [] [] [] []]; vm_compute; intros; done. Qed.

Lemma ToLower_lower s : all_bytes (between "a" "z") s = true -> ToLower s = s.
Proof.
  induction s as [|c s IH]; [done|]. simpl.
  intros [Hc Hs]%andb_true_iff.
  destruct (scheme_byte_facts c Hc) as [_ ->]. by rewrite IH.
Qed.

Lemma getScheme_loop_scheme raw i s rest :
  all_bytes (between "a" "z") s = true ->
  0 < i + len s ->
  getScheme_loop raw i (s +:+ String ":" rest)
  = Ok (take (i + len s) raw, drop (i + len s + 1) raw).
Proof.
  revert i; induction s as [|c s IH]; intros i Hs Hi.
  - rewrite app_nil_l. simpl in *. destruct i; [lia|].
    simpl. by rewrite !Nat.add_0_r.
  - rewrite app_cons. simpl in Hs. apply andb_true_iff in Hs as [Hc Hs].
    simpl getScheme_loop. rewrite Hc. simpl orb. cbv iota.
    rewrite (IH (S i) Hs) by (simpl; lia). simpl len.
    by replace (S i + len s) with (i + S (len s)) by lia.
Qed.

Lemma getScheme_plain scheme rest :
  plain_scheme scheme = true ->
  getScheme (scheme +:+ String ":" rest) = Ok (scheme, rest).
Proof.
  unfold plain_scheme. intros [Hne Hs]%andb_true_iff.
  unfold getScheme. rewrite (getScheme_loop_scheme _ 0 scheme rest Hs).
  - simpl Nat.add. rewrite take_app_len.
    replace (len scheme + 1) with (len (scheme +:+ ":")).
    + change (String ":" rest) with (":" +:+ rest).
      rewrite <- (app_assoc' scheme ":" rest). by rewrite drop_app_len.
    + by rewrite len_app.
  - destruct scheme; [done|]. simpl. lia.
Qed.

Lemma Index_byte_app c A q :
  count_byte c A = 0 -> Index (A +:+ String c q) (String c "") = Some (len A).
Proof.
  induction A as [|x A IH].
  - intros _. rewrite app_nil_l, Index_byte. by rewrite Ascii.eqb_refl.
  - rewrite app_cons, Index_byte. simpl.
    destruct (Ascii.eqb x c); [done|]. simpl. intros H. by rewrite IH.
Qed.

Lemma Index_byte_absent c A :
  count_byte c A = 0 -> Index A (String c "") = None.
Proof.
  intros H%Contains_byte. unfold Contains in H.
  by destruct (Index A (String c "")).
Qed.

Lemma LastIndex_byte_absent c s :
  count_byte c s = 0 -> LastIndex s (String c "") = None.
Proof.
  induction s as [|x s IH]; [done|]. simpl count_byte.
  destruct (Ascii.eqb x c) eqn:E; [done|]. simpl. intros H.
  rewrite (IH H). by rewrite HasPrefix_byte, E.
Qed.

Lemma HasSuffix_app_byte A c : HasSuffix (A +:+ String c "") (String c "") = true.
Proof.
  unfold HasSuffix. rewrite len_app. change (len (String c "")) with 1.
  replace (len A + 1 - 1) with (len A) by lia. rewrite drop_app_len.
  rewrite String.eqb_refl. apply andb_true_iff. split; [|done].
  apply Nat.leb_le. lia.
Qed.

(** How [parse] separates the query of [A ++ qs], when [A] has no question
    mark and [qs] is empty or starts with one: what comes before is [A],
    and what [String] later writes after the path is [qs] again. *)
Lemma query_split_plain A qs :
  count_byte "?" A = 0 ->
  String.eqb qs "" || HasPrefix qs "?" = true ->
  exists fq rq,
    (if HasSuffix (A +:+ qs) "?" && (Count (A +:+ qs) "?" =? 1)
     then (take (len (A +:+ qs) - 1) (A +:+ qs), true, "")
     else let '(b, a, _) := Cut (A +:+ qs) "?" in (b, false, a))
    = (A, fq, rq)
    /\ (if fq || negb (String.eqb rq "") then "?" +:+ rq else "") = qs.
Proof.
  intros HA Hqs. rewrite Count_byte.
  destruct qs as [|c q].
  - rewrite app_nil_r, HA. rewrite andb_false_r.
    unfold Cut. rewrite (Index_byte_absent _ _ HA). by exists false, "".
  - simpl in Hqs. rewrite HasPrefix_byte in Hqs. apply Ascii.eqb_eq in Hqs as ->.
    destruct (HasSuffix (A +:+ String "?" q) "?"
              && (count_byte "?" (A +:+ String "?" q) =? 1)) eqn:Hcond.
    + apply andb_true_iff in Hcond as [Hs Hc]. apply Nat.eqb_eq in Hc.
      apply HasSuffix_app in Hs. change (len "?") with 1 in Hs.
      set (t := take (len (A +:+ String "?" q) - 1) (A +:+ String "?" q)) in *.
      assert (count_byte "?" t = 0) as Ht.
      { rewrite Hs, count_byte_app in Hc. simpl in Hc. lia. }
      assert (t = A) as ->.
      { rewrite <- (before_app_absent "?" t "" Ht), <- Hs.
        by rewrite before_app_absent. }
      apply (inj (String.app A)) in Hs. injection Hs as ->.
      by exists true, "".
    + unfold Cut. rewrite (Index_byte_app _ _ _ HA).
      change (len "?") with 1.
      change (A +:+ String "?" q) with (A +:+ "?" +:+ q).
      rewrite take_app_len. rewrite <- (app_assoc' A "?" q).
      replace (len A + 1) with (len (A +:+ "?")) by (by rewrite len_app).
      rewrite drop_app_len. exists false, q. split; [done|].
      destruct q as [|c q]; [|done].
      rewrite HasSuffix_app_byte, count_byte_app, HA in Hcond. done.
Qed.

Lemma unescape_host_plain h :
  all_bytes (fun c => isAlnum c || byte_in c ".-") h = true ->
  unescape h encodeHost = Ok h.
Proof.
  induction h as [|c h IH]; [done|]. simpl all_bytes.
  intros [Hc Hh]%andb_true_iff.
  destruct (host_byte_facts c Hc) as (_ & _ & _ & E1 & E2 & E3).
  simpl unescape. rewrite E1, E2, E3, andb_false_r. by rewrite (IH Hh).
Qed.

Lemma unescape_path_plain p :
  all_bytes (fun c => isAlnum c || byte_in c "-._~/") p = true ->
  unescape p encodePath = Ok p.
Proof.
  induction p as [|c p IH]; [done|]. simpl all_bytes.
  intros [Hc Hp]%andb_true_iff.
  destruct (path_byte_facts c Hc) as (_ & E1 & _).
  rewrite unescape_path_cons, E1. by rewrite (IH Hp).
Qed.

Lemma escape_plain (P : ascii -> bool) mode s :
  (forall c, P c = true -> shouldEscape c mode = false) ->
  all_bytes P s = true -> escape s mode = s.
Proof.
  intros HP. induction s as [|c s IH]; [done|]. simpl all_bytes.
  intros [Hc Hs]%andb_true_iff. simpl escape.
  by rewrite (HP c Hc), (IH Hs).
Qed.

Lemma host_count c h :
  byte_in c "%+?@:[/" = true ->
  all_bytes (fun c => isAlnum c || byte_in c ".-") h = true ->
  count_byte c h = 0.
Proof.
  intros Hc. induction h as [|x h IH]; [done|]. simpl.
  intros [Hx Hh]%andb_true_iff. rewrite (IH Hh).
  destruct (Ascii.eqb x c) eqn:E; [|done]. apply Ascii.eqb_eq in E as ->.
  exfalso. revert Hc Hx. clear.
  destruct c as [[] [] [] [] [] [] [] []]; vm_compute; intros; done.
Qed.

Lemma path_count_query p :
  all_bytes (fun c => isAlnum c || byte_in c "-._~/") p = true ->
  count_byte "?" p = 0.
Proof.
  intros Hp. apply (quiet_count "?" p eq_refl).
  apply (all_bytes_impl _ _ _ (fun c H => proj1 (path_byte_facts c H)) Hp).
Qed.

Lemma parseAuthority_plain h :
  plain_host h = true -> parseAuthority h = Ok (None, h).
Proof.
  unfold plain_host. intros [Hne Hh]%andb_true_iff.
  unfold parseAuthority.
  rewrite (LastIndex_byte_absent "@" h (host_count "@" h eq_refl Hh)).
  unfold parseHost.
  assert (HasPrefix h "[" = false) as ->.
  { destruct h as [|c h]; [done|]. rewrite HasPrefix_byte.
    simpl in Hh. apply andb_true_iff in Hh as [Hc _].
    by destruct (host_byte_facts c Hc) as (_ & _ & -> & _). }
  rewrite (LastIndex_byte_absent ":" h (host_count ":" h eq_refl Hh)).
  by rewrite (unescape_host_plain h Hh).
Qed.

Lemma authority_split h p :
  plain_host h = true -> plain_path p = true ->
  match Index (h +:+ p) "/" with
  | Some i => (take i (h +:+ p), drop i (h +:+ p))
  | None => (h +:+ p, "")
  end = (h, p).
Proof.
  unfold plain_host, plain_path.
  intros [_ Hh]%andb_true_iff [Hp _]%andb_true_iff.
  pose proof (host_count "/" h eq_refl Hh) as Hc.
  destruct p as [|c p].
  - rewrite app_nil_r. by rewrite (Index_byte_absent _ _ Hc).
  - simpl in Hp. rewrite HasPrefix_byte in Hp. apply Ascii.eqb_eq in Hp as ->.
    rewrite (Index_byte_app _ _ _ Hc). by rewrite take_app_len, drop_app_len.
Qed.

Lemma plain_url_shape scheme host path qs :
  plain_url scheme host path qs
  = scheme +:+ String ":" (("//" +:+ host +:+ path) +:+ qs).
Proof.
  unfold plain_url. change ("://" +:+ host +:+ path +:+ qs)
    with (String ":" ("//" +:+ host +:+ path +:+ qs)).
  by rewrite !app_assoc'.
Qed.

Lemma plain_url_quiet scheme host path qs :
  plain_scheme scheme = true -> plain_host host = true ->
  plain_path path = true -> plain_query qs = true ->
  stringContainsCTLByte (plain_url scheme host path qs) = false
  /\ String.eqb (plain_url scheme host path qs) "" = false
  /\ String.eqb (plain_url scheme host path qs) "*" = false.
Proof.
  unfold plain_scheme, plain_host, plain_path, plain_query.
  intros [Hs1 Hs]%andb_true_iff [_ Hh]%andb_true_iff [_ Hp]%andb_true_iff
         [_ Hq]%andb_true_iff.
  split.
  - unfold plain_url. rewrite !CTL_app.
    rewrite (quiet_CTL scheme
               (all_bytes_impl _ _ _ (fun c H => proj1 (scheme_byte_facts c H)) Hs)).
    rewrite (quiet_CTL host
               (all_bytes_impl _ _ _ (fun c H => proj1 (host_byte_facts c H)) Hh)).
    rewrite (quiet_CTL path
               (all_bytes_impl _ _ _ (fun c H => proj1 (path_byte_facts c H)) Hp)).
    apply negb_true_iff in Hq. by rewrite Hq.
  - rewrite plain_url_shape.
    destruct scheme as [|c s]; [done|]. rewrite app_cons. split; [done|].
    simpl. destruct (Ascii.eqb c "*"); [|done].
    destruct s; rewrite ?app_cons, ?app_nil_l; done.
Qed.

(** What [ParseRequestURI] makes of a plain URL. *)
Lemma parse_plain_url scheme host path qs :
  plain_scheme scheme = true -> plain_host host = true ->
  plain_path path = true -> plain_query qs = true ->
  exists fq rq,
    parse_viaRequest (plain_url scheme host path qs)
    = Ok (mkURL scheme "" None host path "" false fq rq "" "")
    /\ (if fq || negb (String.eqb rq "") then "?" +:+ rq else "") = qs.
Proof.
  intros Hs Hh Hp Hq.
  destruct (plain_url_quiet _ _ _ _ Hs Hh Hp Hq) as (E1 & E2 & E3).
  unfold parse_viaRequest. rewrite E1, E2, E3.
  rewrite plain_url_shape, (getScheme_plain _ _ Hs).
  assert (count_byte "?" ("//" +:+ host +:+ path) = 0) as HA.
  { change ("//" +:+ host +:+ path) with (String "/" (String "/" (host +:+ path))).
    simpl. rewrite count_byte_app.
    unfold plain_host in Hh. apply andb_true_iff in Hh as [_ Hh'].
    unfold plain_path in Hp. apply andb_true_iff in Hp as [_ Hp'].
    by rewrite (host_count "?" host eq_refl Hh'), (path_count_query path Hp'). }
  assert (String.eqb qs "" || HasPrefix qs "?" = true) as Hqs
    by (unfold plain_query in Hq; by apply andb_true_iff in Hq as [? _]).
  destruct (query_split_plain _ qs HA Hqs) as (fq & rq & Hsplit & Hout).
  exists fq, rq. split; [|done].
  unfold mbind, result_bind. cbv beta iota.
  assert (ToLower scheme = scheme) as ->.
  { apply ToLower_lower. unfold plain_scheme in Hs.
    by apply andb_true_iff in Hs as [_ ?]. }
  rewrite Hsplit.
  assert (String.eqb scheme "" = false) as Hne.
  { unfold plain_scheme in Hs. apply andb_true_iff in Hs as [Hs' _].
    by apply negb_true_iff in Hs'. }
  rewrite Hne.
  change (HasPrefix ("//" +:+ host +:+ path) "/") with true.
  change (HasPrefix ("//" +:+ host +:+ path) "//") with true.
  simpl negb. simpl andb. cbv iota.
  change (drop 2 ("//" +:+ host +:+ path)) with (host +:+ path).
  rewrite (authority_split host path Hh Hp).
  rewrite (parseAuthority_plain host Hh).
  unfold setPath. unfold plain_path in Hp. apply andb_true_iff in Hp as [_ Hp'].
  rewrite (unescape_path_plain path Hp').
  unfold mbind, result_bind. cbv beta iota.
  rewrite (escape_plain _ encodePath path
             (fun c H => proj2 (proj2 (path_byte_facts c H))) Hp').
  by rewrite String.eqb_refl.
Qed.

(** ... and what [String] writes back. *)
Lemma String_plain_url scheme host path fq rq :
  plain_scheme scheme = true -> plain_host host = true ->
  plain_path path = true ->
  URL_String (mkURL scheme "" None host path "" false fq rq "" "")
  = plain_url scheme host path
      (if fq || negb (String.eqb rq "") then "?" +:+ rq else "").
Proof.
  unfold plain_scheme, plain_host, plain_path.
  intros [Hs1 Hs]%andb_true_iff [Hh1 Hh]%andb_true_iff [Hp1 Hp]%andb_true_iff.
  unfold URL_String, EscapedPath. simpl.
  rewrite Hs1, Hh1. simpl.
  rewrite (escape_plain _ encodeHost host
             (fun c H => proj2 (proj2 (proj2 (proj2 (proj2 (host_byte_facts c H))))))
             Hh).
  rewrite (escape_plain _ encodePath path
             (fun c H => proj2 (proj2 (path_byte_facts c H))) Hp).
  assert (String.eqb path "*" = false) as ->.
  { destruct path as [|c p]; [done|]. simpl in Hp1.
    rewrite HasPrefix_byte in Hp1. apply Ascii.eqb_eq in Hp1 as ->. done. }
  assert (negb (String.eqb path "") && negb (HasPrefix path "/") = false) as ->.
  { destruct (String.eqb path ""); [done|]. simpl in *. by rewrite Hp1. }
  simpl.
  assert (String.eqb (((("" +:+ scheme +:+ ":") +:+ "//") +:+ host)) "" = false)
    as ->.
  { rewrite !app_nil_l. destruct scheme; done. }
  unfold plain_url. rewrite !app_nil_l.
  destruct (fq || negb (String.eqb rq "")); rewrite ?app_nil_r, ?app_assoc'; done.
Qed.

Lemma plain_bytes_ascii c :
  (between "a" "z" c = true -> ascii_byte c = true)
  /\ (isAlnum c || byte_in c ".-" = true -> ascii_byte c = true)
  /\ (isAlnum c || byte_in c "-._~/" = true -> ascii_byte c = true).
Proof. destruct c as [[] [] [] [] [] [] [] []]; vm_compute; repeat split; done. Qed.

(** A plain URL with an ASCII query is ASCII. *)
Lemma plain_url_ascii scheme host path qs :
  plain_scheme scheme = true -> plain_host host = true ->
  plain_path path = true -> all_bytes ascii_byte qs = true ->
  all_bytes ascii_byte (plain_url scheme host path qs) = true.
Proof.
  unfold plain_scheme, plain_host, plain_path.
  intros [_ Hs]%andb_true_iff [_ Hh]%andb_true_iff [_ Hp]%andb_true_iff Hq.
  unfold plain_url. rewrite !all_bytes_app, Hq.
  rewrite (all_bytes_impl _ _ _ (fun c => proj1 (plain_bytes_ascii c)) Hs).
  rewrite (all_bytes_impl _ _ _ (fun c => proj1 (proj2 (plain_bytes_ascii c))) Hh).
  by rewrite (all_bytes_impl _ _ _ (fun c => proj2 (proj2 (plain_bytes_ascii c))) Hp).
Qed.

(** X16.  Plain URLs are stored byte for byte.  For a create request with
    a valid token and a served method whose [url] parameter is a plain
    URL (lower-case scheme, [://], a host of letters, digits, dots and
    dashes, a path of unreserved bytes and slashes, an optional query
    without control bytes), with an unused short identifier: the answer is
    200 and the row stored under the identifier holds the parameter
    exactly as given.  A GET of a slash followed by the identifier
    redirects (307) to that text with every byte from [0x80] on
    percent-escaped, hence to exactly that text when the query holds ASCII
    bytes only. *)
Theorem create_stores_plain_url_verbatim (v : variant)
    (env : gmap string string) (d : db) (fresh : string) (now : Z)
    (r : Request) (token scheme host path qs : string) :
  bearerToken (Get r.(Header) "Authorization") = Done token ->
  validateAuthorization d token = true ->
  createMethod v r.(Method) = true ->
  Get r.(URL_Query) "url" = plain_url scheme host path qs ->
  plain_scheme scheme = true -> plain_host host = true ->
  plain_path path = true -> plain_query qs = true ->
  shortuuid_key fresh = true ->
  d.(links) !! fresh = None ->
  let U := Get r.(URL_Query) "url" in
  exists d' w,
    createLinkHandler v env d fresh now r
    = Done (d', json_Encode "application/json" w)
    /\ d'.(links) !! fresh = Some (mkLinkRow U now)
    /\ (forall hdr q,
          expandLinkHandler d' (mkRequest MethodGet hdr ("/" +:+ fresh) q)
          = Done (http_Redirect (hexEscapeNonASCII U) StatusTemporaryRedirect))
    /\ (all_bytes ascii_byte qs = true ->
        forall hdr q,
          expandLinkHandler d' (mkRequest MethodGet hdr ("/" +:+ fresh) q)
          = Done (http_Redirect U StatusTemporaryRedirect)).
Proof.
  intros Ht Hv Hm HU Hs Hh Hp Hq Hk Hfresh U.
  destruct (parse_plain_url scheme host path qs Hs Hh Hp Hq)
    as (fq & rq & Hparse & Hout).
  pose proof (String_plain_url scheme host path fq rq Hs Hh Hp) as Hstr.
  rewrite Hout, <- HU in Hstr. fold U in Hstr.
  destruct (create_stores_and_expands v env d fresh now r token
              (mkURL scheme "" None host path "" false fq rq "" ""))
    as (d' & w & Hrun & _ & Hl & Hexp); try done.
  { unfold ParseRequestURI. by rewrite HU, Hparse. }
  { simpl. intros ->. done. }
  rewrite Hstr in Hl, Hexp.
  exists d', w. split; [done|]. split; [rewrite Hl; apply lookup_insert_eq|].
  split; [done|]. intros Hascii hdr q. rewrite Hexp.
  unfold U. rewrite HU.
  by rewrite (hexEscapeNonASCII_ascii _ (plain_url_ascii _ _ _ _ Hs Hh Hp Hascii)).
Qed.

Lemma create_stores_plain_url_verbatim_witness :
  let U := "https://example.com/a/b?x=1&y=2" in
  exists d' w,
    createLinkHandler Enhanced Sample.env Sample.store Sample.fresh 7
      (Sample.create "POST" "Bearer secret" U)
    = Done (d', json_Encode "application/json" w)
    /\ d'.(links) !! Sample.fresh = Some (mkLinkRow U 7)
    /\ (forall hdr q,
          expandLinkHandler d' (mkRequest MethodGet hdr ("/" +:+ Sample.fresh) q)
          = Done (http_Redirect (hexEscapeNonASCII U) StatusTemporaryRedirect))
    /\ (all_bytes ascii_byte "?x=1&y=2" = true ->
        forall hdr q,
          expandLinkHandler d' (mkRequest MethodGet hdr ("/" +:+ Sample.fresh) q)
          = Done (http_Redirect U StatusTemporaryRedirect)).
Proof.
  apply (create_stores_plain_url_verbatim Enhanced Sample.env Sample.store
           Sample.fresh 7
           (Sample.create "POST" "Bearer secret" "https://example.com/a/b?x=1&y=2")
           "secret" "https" "example.com" "/a/b" "?x=1&y=2");
    reflexivity.
Defined.
